(** * LSMLIB: MATLAB MEX wrappers and level-set RHS kernels

    A shallow embedding of

    - [src/matlab/spatial_derivatives/HJ_ENO3_3D.c] (third-order HJ ENO
      derivative wrapper),
    - [COMPUTE_NORMAL_VELOCITY_TERM_FOR_LSE_RHS_3D.c] (normal-velocity
      right-hand-side wrapper),
    - the narrow-band routines declared in
      [lsm_level_set_evolution3d_local.h].

    A MEX entry point is a C function that validates its arguments,
    allocates scratch and output arrays through the MATLAB API and then
    calls a Fortran 77 kernel.  It is modelled as a computation in a
    state-and-error monad: the state holds the output slots [plhs], the
    scratch blocks obtained from [mxMalloc] and the list of kernel calls
    made so far. *)

From Stdlib Require Import ZArith String Lia.
From Stdlib Require Import Floats.SpecFloat.
From stdpp Require Import base list gmap.

Open Scope Z_scope.

(** ** C integers *)

Definition INT_MAX : Z := 2147483647.
Definition INT_MIN : Z := -2147483648.

Definition int_range (z : Z) : bool := (INT_MIN <=? z) && (z <=? INT_MAX).

(** Arithmetic on [int].  Signed overflow has no defined result in C, so
    the operations are partial. *)
Definition int_checked (z : Z) : option Z :=
  if int_range z then Some z else None.

Definition int_add (a b : Z) : option Z := int_checked (a + b).
Definition int_sub (a b : Z) : option Z := int_checked (a - b).
Definition int_mul (a b : Z) : option Z := int_checked (a * b).

(** Integer division truncates toward zero. *)
Definition int_div (a b : Z) : option Z :=
  if b =? 0 then None else int_checked (Z.quot a b).

(** [size_t] is unsigned and 64 bits wide; arithmetic wraps. *)
Definition SIZE_MODULUS : Z := 2 ^ 64.
Definition to_size_t (z : Z) : Z := z mod SIZE_MODULUS.
Definition size_mul (a b : Z) : Z := (a * b) mod SIZE_MODULUS.

(** ** Floating-point data *)

(** [LSMLIB_DOUBLE_PRECISION] is either defined or not when the library is
    built; [LSMLIB_REAL] is [double] in the first case, [float] in the
    second. *)
Inductive precision := DoublePrecision | SinglePrecision.

(** Element values are IEEE 754 binary floats. *)
Abbreviation real := spec_float.

Definition real_prec (cfg : precision) : Z :=
  match cfg with DoublePrecision => 53 | SinglePrecision => 24 end.
Definition real_emax (cfg : precision) : Z :=
  match cfg with DoublePrecision => 1024 | SinglePrecision => 128 end.
Definition sizeof_LSMLIB_REAL (cfg : precision) : Z :=
  match cfg with DoublePrecision => 8 | SinglePrecision => 4 end.

Definition zero : real := S754_zero false.

(** Conversion of a [double] to [LSMLIB_REAL] (an assignment in C). *)
Definition double_to_LSMLIB_REAL (cfg : precision) (x : real) : real :=
  match cfg with
  | DoublePrecision => x
  | SinglePrecision =>
      match x with
      | S754_finite s m e => binary_normalize 24 128 (cond_Zopp s (Zpos m)) e s
      | _ => x
      end
  end.

(** Conversion of a [double] to [int]: the fractional part is discarded;
    there is no defined result when the value does not fit (or is not a
    number). *)
Definition double_trunc (x : real) : option Z :=
  match x with
  | S754_zero _ => Some 0
  | S754_finite s m e =>
      let mag := if 0 <=? e then Zpos m * 2 ^ e else Zpos m / 2 ^ (- e) in
      Some (cond_Zopp s mag)
  | _ => None
  end.

Definition double_to_int (x : real) : option Z :=
  match double_trunc x with
  | Some z => int_checked z
  | None => None
  end.

(** ** MATLAB arrays *)

Inductive mxClassID :=
| mxLOGICAL_CLASS
| mxCHAR_CLASS
| mxDOUBLE_CLASS
| mxSINGLE_CLASS
| mxINT8_CLASS
| mxUINT8_CLASS
| mxINT32_CLASS
| mxUINT32_CLASS.

#[global] Instance mxClassID_eq_dec : EqDecision mxClassID.
Proof. solve_decision. Defined.

Record mxArray := MxArray {
  mx_class : mxClassID;
  mx_dims : list Z;       (* what mxGetDimensions points to *)
  mx_data : list real     (* what mxGetPr points to, column major *)
}.

Definition mxGetNumberOfDimensions (a : mxArray) : Z :=
  Z.of_nat (length (mx_dims a)).

Definition mxIsDouble (a : mxArray) : bool :=
  bool_decide (mx_class a = mxDOUBLE_CLASS).
Definition mxIsSingle (a : mxArray) : bool :=
  bool_decide (mx_class a = mxSINGLE_CLASS).

(** The 32 bits of a [float] in the IEEE 754 binary32 format: the sign,
    eight bits of biased exponent, 23 bits of fraction.  A NaN has no
    single bit pattern, and a value that is not a binary32 number has
    none. *)
Definition binary32_bits (x : real) : option Z :=
  match x with
  | S754_zero s => Some (if s then 2 ^ 31 else 0)
  | S754_infinity s => Some ((if s then 2 ^ 31 else 0) + 255 * 2 ^ 23)
  | S754_nan => None
  | S754_finite s m e =>
      let sign := if s then 2 ^ 31 else 0 in
      if (e =? -149) && (Zpos m <? 2 ^ 23) then
        (* subnormal: exponent field 0 *)
        Some (sign + Zpos m)
      else if (2 ^ 23 <=? Zpos m) && (Zpos m <? 2 ^ 24)
              && (-149 <=? e) && (e <=? 104) then
        (* normal: implicit leading bit, exponent biased by 127 *)
        Some (sign + (e + 150) * 2 ^ 23 + (Zpos m - 2 ^ 23))
      else None
  end.

(** The [double] whose IEEE 754 binary64 representation is the 64 bits
    [b]: the sign, eleven bits of biased exponent, 52 bits of fraction. *)
Definition binary64_of_bits (b : Z) : real :=
  let s := Z.testbit b 63 in
  let e := Z.land (Z.shiftr b 52) 2047 in
  let f := Z.land b (2 ^ 52 - 1) in
  if e =? 0 then
    match f with
    | Zpos m => S754_finite s m (-1074)
    | _ => S754_zero s
    end
  else if e =? 2047 then
    if f =? 0 then S754_infinity s else S754_nan
  else
    match f + 2 ^ 52 with
    | Zpos m => S754_finite s m (e - 1075)
    | _ => S754_nan
    end.

(** [mxGetPr(a)[i]] read through a [double *].  [mxGetPr] returns the
    address of the data whatever the class of the array is.  In an array
    of [float]s the eight bytes of the double number [i] are the floats
    [2 i] and [2 i + 1], the first one in the low half (the byte order of
    the machines MATLAB runs on); a read past the last element has no
    defined value.  The element values of the other classes are not
    represented in [mx_data], so the model gives no value to a read
    there. *)
Definition mxGetPr_double (a : mxArray) (i : nat) : option real :=
  match mx_class a with
  | mxDOUBLE_CLASS => mx_data a !! i
  | mxSINGLE_CLASS =>
      lo ← mx_data a !! (2 * i)%nat;
      hi ← mx_data a !! (2 * i + 1)%nat;
      bl ← binary32_bits lo;
      bh ← binary32_bits hi;
      Some (binary64_of_bits (bl + bh * 2 ^ 32))
  | _ => None
  end.

(** [mxGetDimensions(a)[0 .. 2]]. *)
Definition dims3 (a : mxArray) : option (Z * Z * Z) :=
  match mx_dims a with
  | n0 :: n1 :: n2 :: _ => Some (n0, n1, n2)
  | _ => None
  end.

(** MATLAB drops trailing singleton dimensions beyond the second one. *)
Fixpoint drop_trailing_ones (rev_dims : list Z) (keep : nat) : list Z :=
  match rev_dims with
  | d :: rest =>
      if (d =? 1) && bool_decide (keep < length rev_dims)%nat
      then drop_trailing_ones rest keep
      else rev_dims
  | [] => []
  end.

Definition normalize_dims (dims : list Z) : list Z :=
  rev (drop_trailing_ones (rev dims) 2).

Definition num_elements (dims : list Z) : Z := fold_right Z.mul 1 dims.

(** The value of [mxCreateNumericArray(ndim, dims, class, mxREAL)]: all
    elements are initialised to zero. *)
Definition new_numeric_array (dims : list Z) (c : mxClassID) : mxArray :=
  {| mx_class := c;
     mx_dims := normalize_dims dims;
     mx_data := replicate (Z.to_nat (num_elements dims)) zero |}.

(** A value as MATLAB hands it to a MEX function. *)
Definition mx_wf (a : mxArray) : Prop :=
  Forall (fun d => 0 <= d <= INT_MAX) (mx_dims a) /\
  normalize_dims (mx_dims a) = mx_dims a /\
  Z.of_nat (length (mx_data a)) = num_elements (mx_dims a).

(** ** Index boxes and Fortran arrays *)

Record box := Box {
  ilo : Z; ihi : Z;
  jlo : Z; jhi : Z;
  klo : Z; khi : Z
}.

Definition in_box (b : box) (i j k : Z) : Prop :=
  ilo b <= i <= ihi b /\ jlo b <= j <= jhi b /\ klo b <= k <= khi b.

(** Position of element [(i,j,k)] of a Fortran array declared
    [a(ilo:ihi, jlo:jhi, klo:khi)], counted from the start of its storage. *)
Definition offset (gb : box) (i j k : Z) : Z :=
  (i - ilo gb)
  + (ihi gb - ilo gb + 1) * ((j - jlo gb) + (jhi gb - jlo gb + 1) * (k - klo gb)).

(** Reads and writes through a raw pointer: there are no subscript checks,
    only the extent of the storage decides whether the access is defined. *)
Definition load {A} (a : list A) (gb : box) (i j k : Z) : option A :=
  let o := offset gb i j k in
  if o <? 0 then None else a !! Z.to_nat o.

Definition store {A} (a : list A) (gb : box) (i j k : Z) (v : A) : option (list A) :=
  let o := offset gb i j k in
  if (0 <=? o) && (o <? Z.of_nat (length a))
  then Some (<[Z.to_nat o := v]> a)
  else None.

(** A counted loop whose body may fail: [n] iterations starting at [i]. *)
Fixpoint do_from {S} (n : nat) (i : Z) (body : Z -> S -> option S) (s : S)
  : option S :=
  match n with
  | O => Some s
  | S n' =>
      match body i s with
      | Some s' => do_from n' (i + 1) body s'
      | None => None
      end
  end.

(** Fortran [do i = lo, hi] (and C [for (i = lo; i <= hi; i++)]). *)
Definition do_loop {S} (lo hi : Z) (body : Z -> S -> option S) (s : S)
  : option S :=
  do_from (Z.to_nat (hi - lo + 1)) lo body s.

(** ** The MEX monad *)

Inductive outcome (A : Type) :=
| Returned (a : A)          (* the function ran to its [return] *)
| Raised (msg : string)     (* [mexErrMsgTxt]: control goes back to MATLAB *)
| Undefined.                (* the behaviour is not defined by C or the API *)
Arguments Returned {A} a.
Arguments Raised {A} msg.
Arguments Undefined {A}.

(** Pointers handed to a kernel. *)
Inductive ptr :=
| PrhsData (i : nat)        (* mxGetPr(prhs[i]) *)
| PlhsData (i : nat)        (* mxGetPr(plhs[i]) *)
| Scratch (id : nat).       (* a block returned by mxMalloc *)

Record mex_state (K : Type) := MexState {
  st_plhs : gmap nat mxArray;      (* output slots assigned so far *)
  st_live : list (nat * Z);        (* scratch blocks not yet freed, with sizes *)
  st_next : nat;                   (* next fresh block id *)
  st_oracle : list bool;           (* whether the coming mxMalloc calls succeed *)
  st_calls : list K                (* kernel calls made so far, latest first *)
}.
Arguments MexState {K}.
Arguments st_plhs {K}.
Arguments st_live {K}.
Arguments st_next {K}.
Arguments st_oracle {K}.
Arguments st_calls {K}.

Definition initial_state {K} (oracle : list bool) : mex_state K :=
  MexState ∅ [] 0%nat oracle [].

Definition M (K A : Type) : Type := mex_state K -> outcome A * mex_state K.

Definition ret {K A} (a : A) : M K A := fun st => (Returned a, st).

Definition bind {K A B} (m : M K A) (f : A -> M K B) : M K B :=
  fun st =>
    match m st with
    | (Returned a, st') => f a st'
    | (Raised msg, st') => (Raised msg, st')
    | (Undefined, st') => (Undefined, st')
    end.

Notation "'let*' x ':=' m 'in' k" := (bind m (fun x => k))
  (at level 10, x pattern, m at level 100, k at level 200).
Notation "m ';;' k" := (bind m (fun _ => k))
  (at level 100, k at level 200, right associativity).

Definition mexErrMsgTxt {K A} (msg : string) : M K A :=
  fun st => (Raised msg, st).

(** A C expression that may have no defined value. *)
Definition eval {K A} (o : option A) : M K A :=
  fun st => match o with Some a => (Returned a, st) | None => (Undefined, st) end.

(** [mxMalloc]: a null pointer is [None]. *)
Definition mxMalloc {K} (size : Z) : M K (option nat) :=
  fun st =>
    match st_oracle st with
    | true :: rest =>
        (Returned (Some (st_next st)),
         MexState (st_plhs st) ((st_next st, size) :: st_live st)
                  (S (st_next st)) rest (st_calls st))
    | false :: rest =>
        (Returned None,
         MexState (st_plhs st) (st_live st) (st_next st) rest (st_calls st))
    | [] => (Returned None, st)
    end.

Definition mxFree {K} (id : nat) : M K unit :=
  fun st =>
    (Returned tt,
     MexState (st_plhs st)
              (filter (fun b => fst b ≠ id) (st_live st))
              (st_next st) (st_oracle st) (st_calls st)).

(** [plhs[slot] = mxCreateNumericArray(...)].  Inside a MEX function a
    creation that cannot be satisfied does not return to the caller; the
    model follows the calls in which the array is created. *)
Definition mxCreateNumericArray {K} (slot : nat) (dims : list Z) (c : mxClassID)
  : M K unit :=
  fun st =>
    (Returned tt,
     MexState (<[slot := new_numeric_array dims c]> (st_plhs st))
              (st_live st) (st_next st) (st_oracle st) (st_calls st)).

Definition call_kernel {K} (args : K) : M K unit :=
  fun st =>
    (Returned tt,
     MexState (st_plhs st) (st_live st) (st_next st) (st_oracle st)
              (args :: st_calls st)).

(** The floating-point class of the arrays the library works on. *)
Definition real_class (cfg : precision) : mxClassID :=
  match cfg with
  | DoublePrecision => mxDOUBLE_CLASS
  | SinglePrecision => mxSINGLE_CLASS
  end.

Definition has_real_class (cfg : precision) (a : mxArray) : bool :=
  match cfg with
  | DoublePrecision => mxIsDouble a
  | SinglePrecision => mxIsSingle a
  end.

Definition precision_message (cfg : precision) (name : string) : string :=
  match cfg with
  | DoublePrecision =>
      "Incompatible precision: LSMLIB built for double-precision but "
        ++ name ++ " is single-precision"
  | SinglePrecision =>
      "Incompatible precision: LSMLIB built for single-precision but "
        ++ name ++ " is double-precision"
  end%string.

Definition check_precision {K} (cfg : precision) (a : mxArray) (name : string)
  : M K unit :=
  if has_real_class cfg a then ret tt
  else mexErrMsgTxt (precision_message cfg name).

(** [hi - lo + 1] in [int] arithmetic. *)
Definition extent (lo hi : Z) : option Z :=
  match int_sub hi lo with
  | Some d => int_add d 1
  | None => None
  end.

(** [sizeof(LSMLIB_REAL) * ni * nj * nk], computed in [size_t]. *)
Definition scratch_bytes (cfg : precision) (ni nj nk : Z) : Z :=
  size_mul (size_mul (size_mul (sizeof_LSMLIB_REAL cfg) (to_size_t ni))
                     (to_size_t nj))
           (to_size_t nk).

(** The fill box: the ghost box shrunk by the ghostcell width. *)
Definition fillbox (gb : box) (w : Z) : option box :=
  match int_add (ilo gb) w, int_sub (ihi gb) w,
        int_add (jlo gb) w, int_sub (jhi gb) w,
        int_add (klo gb) w, int_sub (khi gb) w with
  | Some il, Some ih, Some jl, Some jh, Some kl, Some kh =>
      Some (Box il ih jl jh kl kh)
  | _, _, _, _, _, _ => None
  end.

(** ** HJ_ENO3_3D.c *)

Module HJ_ENO3_3D.

(** The arguments of one call of the Fortran subroutine [LSM3D_HJ_ENO3], in
    the order of its parameter list: the plus derivatives along the first,
    second and third array index with their ghost box, the minus
    derivatives likewise, [phi], the three scratch arrays of undivided
    differences, the fill box and the grid spacing along the first, second
    and third array index. *)
Record LSM3D_HJ_ENO3_args := {
  phi_x_plus : ptr; phi_y_plus : ptr; phi_z_plus : ptr;
  grad_phi_plus_gb : box;
  phi_x_minus : ptr; phi_y_minus : ptr; phi_z_minus : ptr;
  grad_phi_minus_gb : box;
  phi : ptr; phi_gb : box;
  D1 : ptr; D1_gb : box;
  D2 : ptr; D2_gb : box;
  D3 : ptr; D3_gb : box;
  fb : box;
  dx : real; dy : real; dz : real
}.

Abbreviation MEX := (M LSM3D_HJ_ENO3_args).

(* Output Arguments *)
Definition PHI_X_PLUS : nat := 0.
Definition PHI_Y_PLUS : nat := 1.
Definition PHI_Z_PLUS : nat := 2.
Definition PHI_X_MINUS : nat := 3.
Definition PHI_Y_MINUS : nat := 4.
Definition PHI_Z_MINUS : nat := 5.

(** Positions in [prhs] of the arguments that are arrays of [LSMLIB_REAL]
    ([phi]); [ghostcell_width] and [dX] are read as [double]. *)
Definition real_arguments : list nat := [0%nat].

Definition free_if_allocated (p : option nat) : MEX unit :=
  match p with
  | Some id => mxFree id
  | None => ret tt
  end.

Definition mexFunction (cfg : precision) (nlhs : Z) (prhs : list mxArray)
  : MEX unit :=
  match prhs with
  | [PHI; GHOSTCELL_WIDTH; DX] =>
    (* Check for proper number of arguments *)
    if 6 <? nlhs then mexErrMsgTxt "Too many output arguments." else
    (* Parameter Checks *)
    if negb (mxGetNumberOfDimensions PHI =? 3)
    then mexErrMsgTxt "phi should be a 3 dimensional array." else
    (* Check that the inputs have the correct floating-point precision *)
    check_precision cfg PHI "phi" ;;
    (* Get ghostcell_width *)
    let* ghostcell_width :=
      eval (mxGetPr_double GHOSTCELL_WIDTH 0 ≫= double_to_int) in
    (* Get dX and change its order to match MATLAB meshgrid() order *)
    let* dX1 := eval (mxGetPr_double DX 1) in
    let* dX0 := eval (mxGetPr_double DX 0) in
    let* dX2 := eval (mxGetPr_double DX 2) in
    let dX_meshgrid_order0 := double_to_LSMLIB_REAL cfg dX1 in
    let dX_meshgrid_order1 := double_to_LSMLIB_REAL cfg dX0 in
    let dX_meshgrid_order2 := double_to_LSMLIB_REAL cfg dX2 in
    (* Get size of phi data *)
    let* (n0, n1, n2) := eval (dims3 PHI) in
    let phi_gb := Box 1 n0 1 n1 1 n2 in
    (* Allocate scratch memory for undivided differences *)
    let D1_gb := phi_gb in
    let* e0 := eval (extent (ilo D1_gb) (ihi D1_gb)) in
    let* e1 := eval (extent (jlo D1_gb) (jhi D1_gb)) in
    let* e2 := eval (extent (klo D1_gb) (khi D1_gb)) in
    let* D1 := mxMalloc (scratch_bytes cfg e0 e1 e2) in
    let D2_gb := phi_gb in
    let* e0 := eval (extent (ilo D2_gb) (ihi D2_gb)) in
    let* e1 := eval (extent (jlo D2_gb) (jhi D2_gb)) in
    let* e2 := eval (extent (klo D2_gb) (khi D2_gb)) in
    let* D2 := mxMalloc (scratch_bytes cfg e0 e1 e2) in
    let D3_gb := phi_gb in
    let* e0 := eval (extent (ilo D3_gb) (ihi D3_gb)) in
    let* e1 := eval (extent (jlo D3_gb) (jhi D3_gb)) in
    let* e2 := eval (extent (klo D3_gb) (khi D3_gb)) in
    let* D3 := mxMalloc (scratch_bytes cfg e0 e1 e2) in
    match D1, D2, D3 with
    | Some d1, Some d2, Some d3 =>
      (* Create matrices for plus and minus derivatives *)
      let grad_phi_gb := phi_gb in
      let* o0 := eval (extent (ilo grad_phi_gb) (ihi grad_phi_gb)) in
      let* o1 := eval (extent (jlo grad_phi_gb) (jhi grad_phi_gb)) in
      let* o2 := eval (extent (klo grad_phi_gb) (khi grad_phi_gb)) in
      let data_array_dims_out := [o0; o1; o2] in
      mxCreateNumericArray PHI_X_PLUS data_array_dims_out (real_class cfg) ;;
      mxCreateNumericArray PHI_Y_PLUS data_array_dims_out (real_class cfg) ;;
      mxCreateNumericArray PHI_Z_PLUS data_array_dims_out (real_class cfg) ;;
      mxCreateNumericArray PHI_X_MINUS data_array_dims_out (real_class cfg) ;;
      mxCreateNumericArray PHI_Y_MINUS data_array_dims_out (real_class cfg) ;;
      mxCreateNumericArray PHI_Z_MINUS data_array_dims_out (real_class cfg) ;;
      (* Do the actual computations in a Fortran 77 subroutine *)
      let* fb := eval (fillbox phi_gb ghostcell_width) in
      (* NOTE: ordering of data arrays from meshgrid() is (y,x,z), so
         order derivative data arrays need to be permuted. *)
      call_kernel
        {| phi_x_plus := PlhsData PHI_Y_PLUS;
           phi_y_plus := PlhsData PHI_X_PLUS;
           phi_z_plus := PlhsData PHI_Z_PLUS;
           grad_phi_plus_gb := grad_phi_gb;
           phi_x_minus := PlhsData PHI_Y_MINUS;
           phi_y_minus := PlhsData PHI_X_MINUS;
           phi_z_minus := PlhsData PHI_Z_MINUS;
           grad_phi_minus_gb := grad_phi_gb;
           phi := PrhsData 0; phi_gb := phi_gb;
           D1 := Scratch d1; D1_gb := D1_gb;
           D2 := Scratch d2; D2_gb := D2_gb;
           D3 := Scratch d3; D3_gb := D3_gb;
           fb := fb;
           dx := dX_meshgrid_order0;
           dy := dX_meshgrid_order1;
           dz := dX_meshgrid_order2 |} ;;
      (* Deallocate scratch memory for undivided differences *)
      mxFree d1 ;;
      mxFree d2 ;;
      mxFree d3
    | _, _, _ =>
      free_if_allocated D1 ;;
      free_if_allocated D2 ;;
      free_if_allocated D3 ;;
      mexErrMsgTxt "Unable to allocate memory for scratch data...aborting...."
    end
  | _ => mexErrMsgTxt "Three required input arguments."
  end.

End HJ_ENO3_3D.

(** ** The level-set evolution kernels *)

Section RealArithmetic.
Variable cfg : precision.

Definition radd : real -> real -> real := SFadd (real_prec cfg) (real_emax cfg).
Definition rsub : real -> real -> real := SFsub (real_prec cfg) (real_emax cfg).
Definition rmul : real -> real -> real := SFmul (real_prec cfg) (real_emax cfg).
Definition rsqrt : real -> real := SFsqrt (real_prec cfg) (real_emax cfg).
Definition rmax (a b : real) : real := if SFltb a b then b else a.
Definition rmin (a b : real) : real := if SFltb b a then b else a.
Definition rsq (a : real) : real := rmul a a.

(** Modelled from the spec: the Fortran kernels of
    [lsm_level_set_evolution3d.h] are not part of the sources; this is the
    normal-velocity term of section 4.3, [-V_n |grad(phi)|], with the
    Godunov choice between the one-sided derivatives (the two candidates of
    an axis are combined by taking the larger square). *)
Definition godunov_norm (vel : real) (plus minus : real * real * real) : real :=
  let '(xp, yp, zp) := plus in
  let '(xm, ym, zm) := minus in
  if SFltb zero vel then
    rsqrt (radd (radd (rmax (rsq (rmax xp zero)) (rsq (rmin xm zero)))
                      (rmax (rsq (rmax yp zero)) (rsq (rmin ym zero))))
                (rmax (rsq (rmax zp zero)) (rsq (rmin zm zero))))
  else
    rsqrt (radd (radd (rmax (rsq (rmin xp zero)) (rsq (rmax xm zero)))
                      (rmax (rsq (rmin yp zero)) (rsq (rmax ym zero))))
                (rmax (rsq (rmin zp zero)) (rsq (rmax zm zero)))).

(** Modelled from the spec: the kernels add their term to the right-hand
    side; [old] is the value of the cell before. *)
Definition normal_vel_term (vel : real) (plus minus : real * real * real)
           (old : real) : real :=
  rsub old (rmul vel (godunov_norm vel plus minus)).

(** Modelled from the spec: the subroutine
    [LSM3D_ADD_NORMAL_VEL_TERM_TO_LSE_RHS] (Fortran, not part of the
    sources) adds the normal-velocity term to [lse_rhs] at every point of
    the fill box and touches nothing else. *)
Definition LSM3D_ADD_NORMAL_VEL_TERM_TO_LSE_RHS
    (lse_rhs : list real) (lse_rhs_gb : box)
    (phi_x_plus phi_y_plus phi_z_plus : list real) (grad_phi_plus_gb : box)
    (phi_x_minus phi_y_minus phi_z_minus : list real) (grad_phi_minus_gb : box)
    (vel_n : list real) (vel_gb : box)
    (fb : box) : option (list real) :=
  do_loop (klo fb) (khi fb) (fun k =>
    do_loop (jlo fb) (jhi fb) (fun j =>
      do_loop (ilo fb) (ihi fb) (fun i rhs =>
        vel ← load vel_n vel_gb i j k;
        xp ← load phi_x_plus grad_phi_plus_gb i j k;
        yp ← load phi_y_plus grad_phi_plus_gb i j k;
        zp ← load phi_z_plus grad_phi_plus_gb i j k;
        xm ← load phi_x_minus grad_phi_minus_gb i j k;
        ym ← load phi_y_minus grad_phi_minus_gb i j k;
        zm ← load phi_z_minus grad_phi_minus_gb i j k;
        old ← load rhs lse_rhs_gb i j k;
        store rhs lse_rhs_gb i j k
              (normal_vel_term vel (xp, yp, zp) (xm, ym, zm) old))))
    lse_rhs.

(** Modelled from the spec: the narrow-band routines declared in
    [lsm_level_set_evolution3d_local.h] are Fortran subroutines that are not
    part of the sources.  Each of them visits the points
    [(index_x(l), index_y(l), index_z(l))], [nlo_index <= l <= nhi_index],
    and adds its term to [lse_rhs] at the points whose [narrow_band] tag is
    at most [mark_fb].  [term i j k old] is the new value of the cell, or
    [None] when reading the routine's inputs at [(i,j,k)] is not defined. *)
Definition narrow_band_loop
    (term : Z -> Z -> Z -> real -> option real)
    (lse_rhs : list real) (lse_rhs_gb : box)
    (index_x index_y index_z : list Z) (nlo_index nhi_index : Z)
    (narrow_band : list Z) (nb_gb : box) (mark_fb : Z)
  : option (list real) :=
  do_loop nlo_index nhi_index (fun l rhs =>
    i ← index_x !! Z.to_nat (l - nlo_index);
    j ← index_y !! Z.to_nat (l - nlo_index);
    k ← index_z !! Z.to_nat (l - nlo_index);
    tag ← load narrow_band nb_gb i j k;
    if tag <=? mark_fb then
      old ← load rhs lse_rhs_gb i j k;
      new ← term i j k old;
      store rhs lse_rhs_gb i j k new
    else Some rhs)
    lse_rhs.

(** Modelled from the spec: the advection term, [phi_t = -vel dot grad(phi)
    + ...], with the signature of the header. *)
Definition LSM3D_ADD_ADVECTION_TERM_TO_LSE_RHS_LOCAL
    (lse_rhs : list real) (lse_rhs_gb : box)
    (phi_x phi_y phi_z : list real) (grad_phi_gb : box)
    (vel_x vel_y vel_z : list real) (vel_gb : box)
    (index_x index_y index_z : list Z) (nlo_index nhi_index : Z)
    (narrow_band : list Z) (nb_gb : box) (mark_fb : Z)
  : option (list real) :=
  narrow_band_loop
    (fun i j k old =>
       px ← load phi_x grad_phi_gb i j k;
       py ← load phi_y grad_phi_gb i j k;
       pz ← load phi_z grad_phi_gb i j k;
       vx ← load vel_x vel_gb i j k;
       vy ← load vel_y vel_gb i j k;
       vz ← load vel_z vel_gb i j k;
       Some (rsub old (radd (radd (rmul vx px) (rmul vy py)) (rmul vz pz))))
    lse_rhs lse_rhs_gb index_x index_y index_z nlo_index nhi_index
    narrow_band nb_gb mark_fb.

(** Modelled from the spec: the normal-velocity term,
    [phi_t = -V_n |grad(phi)| + ...], with a velocity field. *)
Definition LSM3D_ADD_NORMAL_VEL_TERM_TO_LSE_RHS_LOCAL
    (lse_rhs : list real) (lse_rhs_gb : box)
    (phi_x_plus phi_y_plus phi_z_plus : list real) (grad_phi_plus_gb : box)
    (phi_x_minus phi_y_minus phi_z_minus : list real) (grad_phi_minus_gb : box)
    (vel_n : list real) (vel_gb : box)
    (index_x index_y index_z : list Z) (nlo_index nhi_index : Z)
    (narrow_band : list Z) (nb_gb : box) (mark_fb : Z)
  : option (list real) :=
  narrow_band_loop
    (fun i j k old =>
       vel ← load vel_n vel_gb i j k;
       xp ← load phi_x_plus grad_phi_plus_gb i j k;
       yp ← load phi_y_plus grad_phi_plus_gb i j k;
       zp ← load phi_z_plus grad_phi_plus_gb i j k;
       xm ← load phi_x_minus grad_phi_minus_gb i j k;
       ym ← load phi_y_minus grad_phi_minus_gb i j k;
       zm ← load phi_z_minus grad_phi_minus_gb i j k;
       Some (normal_vel_term vel (xp, yp, zp) (xm, ym, zm) old))
    lse_rhs lse_rhs_gb index_x index_y index_z nlo_index nhi_index
    narrow_band nb_gb mark_fb.

(** Modelled from the spec: the normal-velocity term with one scalar
    velocity [vel_n]. *)
Definition LSM3D_ADD_CONST_NORMAL_VEL_TERM_TO_LSE_RHS_LOCAL
    (lse_rhs : list real) (lse_rhs_gb : box)
    (phi_x_plus phi_y_plus phi_z_plus : list real) (grad_phi_plus_gb : box)
    (phi_x_minus phi_y_minus phi_z_minus : list real) (grad_phi_minus_gb : box)
    (vel_n : real)
    (index_x index_y index_z : list Z) (nlo_index nhi_index : Z)
    (narrow_band : list Z) (nb_gb : box) (mark_fb : Z)
  : option (list real) :=
  narrow_band_loop
    (fun i j k old =>
       xp ← load phi_x_plus grad_phi_plus_gb i j k;
       yp ← load phi_y_plus grad_phi_plus_gb i j k;
       zp ← load phi_z_plus grad_phi_plus_gb i j k;
       xm ← load phi_x_minus grad_phi_minus_gb i j k;
       ym ← load phi_y_minus grad_phi_minus_gb i j k;
       zm ← load phi_z_minus grad_phi_minus_gb i j k;
       Some (normal_vel_term vel_n (xp, yp, zp) (xm, ym, zm) old))
    lse_rhs lse_rhs_gb index_x index_y index_z nlo_index nhi_index
    narrow_band nb_gb mark_fb.

(** Modelled from the spec: the curvature term,
    [phi_t = -b kappa |grad(phi)| + ...], with [kappa] and the gradient
    magnitude precomputed. *)
Definition LSM3D_ADD_CONST_PRECOMPUTED_CURV_TERM_TO_LSE_RHS_LOCAL
    (lse_rhs : list real) (rhs_gb : box)
    (kappa : list real) (kappa_gb : box)
    (grad_mag_phi : list real) (phi_gb : box)
    (b : real)
    (index_x index_y index_z : list Z) (nlo_index nhi_index : Z)
    (narrow_band : list Z) (nb_gb : box) (mark_fb : Z)
  : option (list real) :=
  narrow_band_loop
    (fun i j k old =>
       kap ← load kappa kappa_gb i j k;
       mag ← load grad_mag_phi phi_gb i j k;
       Some (rsub old (rmul (rmul b kap) mag)))
    lse_rhs rhs_gb index_x index_y index_z nlo_index nhi_index
    narrow_band nb_gb mark_fb.

End RealArithmetic.

(** ** COMPUTE_NORMAL_VELOCITY_TERM_FOR_LSE_RHS_3D.c *)

Module COMPUTE_NORMAL_VELOCITY_TERM_FOR_LSE_RHS_3D.

(** The arguments of one call of [LSM3D_ADD_NORMAL_VEL_TERM_TO_LSE_RHS], in
    the order of its parameter list. *)
Record LSM3D_ADD_NORMAL_VEL_TERM_TO_LSE_RHS_args := {
  lse_rhs : ptr; lse_rhs_gb : box;
  phi_x_plus : ptr; phi_y_plus : ptr; phi_z_plus : ptr;
  grad_phi_plus_gb : box;
  phi_x_minus : ptr; phi_y_minus : ptr; phi_z_minus : ptr;
  grad_phi_minus_gb : box;
  vel_n : ptr; vel_gb : box;
  fb : box
}.

Abbreviation MEX := (M LSM3D_ADD_NORMAL_VEL_TERM_TO_LSE_RHS_args).

(* Output Arguments *)
Definition LSE_RHS : nat := 0.

(** Positions in [prhs] of the arguments that are arrays of [LSMLIB_REAL]:
    all but [ghostcell_width], which is read as a [double]. *)
Definition real_arguments : list nat :=
  [0; 2; 3; 4; 5; 6; 7; 8]%nat.

(** The messages of the [mexErrMsgTxt] calls of this file. *)
Definition error_messages (cfg : precision) : list string :=
  [ "Nine input arguments required.";
    "Too many output arguments.";
    precision_message cfg "phi";
    precision_message cfg "normal_velocity";
    precision_message cfg "phi_x_plus";
    precision_message cfg "phi_y_plus";
    precision_message cfg "phi_z_plus";
    precision_message cfg "phi_x_minus";
    precision_message cfg "phi_y_minus";
    precision_message cfg "phi_z_minus";
    "phi should be a 3 dimensional array." ]%string.

(** [mxGetPr(plhs[slot])], for reading and for writing. *)
Definition get_plhs_data (slot : nat) : MEX (list real) :=
  fun st =>
    match st_plhs st !! slot with
    | Some a => (Returned (mx_data a), st)
    | None => (Undefined, st)
    end.

Definition set_plhs_data (slot : nat) (data : list real) : MEX unit :=
  fun st =>
    match st_plhs st !! slot with
    | Some a =>
        (Returned tt,
         MexState (<[slot := MxArray (mx_class a) (mx_dims a) data]> (st_plhs st))
                  (st_live st) (st_next st) (st_oracle st) (st_calls st))
    | None => (Undefined, st)
    end.

(** "if necessary, shift ghostbox ... to be centered with respect to the
    ghostbox for phi": the bounds [lo .. hi] of one axis, given the upper
    bound [hi_phi] of phi's ghost box on that axis. *)
Definition center_ghostbox (lo hi hi_phi : Z) : option (Z * Z) :=
  if negb (hi =? hi_phi) then
    d ← int_sub hi_phi hi;
    shift ← int_div d 2;
    lo' ← int_add lo shift;
    hi' ← int_add hi shift;
    Some (lo', hi')
  else Some (lo, hi).

Definition centered_box (dims : Z * Z * Z) (phi_gb : box) : option box :=
  let '(n0, n1, n2) := dims in
  '(il, ih) ← center_ghostbox 1 n0 (ihi phi_gb);
  '(jl, jh) ← center_ghostbox 1 n1 (jhi phi_gb);
  '(kl, kh) ← center_ghostbox 1 n2 (khi phi_gb);
  Some (Box il ih jl jh kl kh).

(** [*p = v] for [p] pointing [i] elements into a buffer. *)
Definition poke (a : list real) (i : Z) (v : real) : option (list real) :=
  if (0 <=? i) && (i <? Z.of_nat (length a))
  then Some (<[Z.to_nat i := v]> a)
  else None.

Definition mexFunction (cfg : precision) (nlhs : Z) (prhs : list mxArray)
  : MEX unit :=
  match prhs with
  | [PHI; GHOSTCELL_WIDTH; NORMAL_VELOCITY;
     PHI_X_PLUS; PHI_Y_PLUS; PHI_Z_PLUS;
     PHI_X_MINUS; PHI_Y_MINUS; PHI_Z_MINUS] =>
    (* Check for proper number of arguments *)
    if 1 <? nlhs then mexErrMsgTxt "Too many output arguments." else
    (* Check that the inputs have the correct floating-point precision *)
    check_precision cfg PHI "phi" ;;
    check_precision cfg NORMAL_VELOCITY "normal_velocity" ;;
    check_precision cfg PHI_X_PLUS "phi_x_plus" ;;
    check_precision cfg PHI_Y_PLUS "phi_y_plus" ;;
    check_precision cfg PHI_Z_PLUS "phi_z_plus" ;;
    check_precision cfg PHI_X_MINUS "phi_x_minus" ;;
    check_precision cfg PHI_Y_MINUS "phi_y_minus" ;;
    check_precision cfg PHI_Z_MINUS "phi_z_minus" ;;
    (* Parameter Checks *)
    if negb (mxGetNumberOfDimensions PHI =? 3)
    then mexErrMsgTxt "phi should be a 3 dimensional array." else
    (* Get size of data *)
    let* (n0, n1, n2) := eval (dims3 PHI) in
    let phi_gb := Box 1 n0 1 n1 1 n2 in
    (* if necessary, shift ghostbox for velocity to be
       centered with respect to the ghostbox for phi. *)
    let* vel_dims := eval (dims3 NORMAL_VELOCITY) in
    let* vel_gb := eval (centered_box vel_dims phi_gb) in
    (* if necessary, shift ghostbox for grad(phi) to be
       centered with respect to the ghostbox for phi. *)
    let* grad_dims := eval (dims3 PHI_X_PLUS) in
    let* grad_phi_gb := eval (centered_box grad_dims phi_gb) in
    (* Create matrix for normal velocity contribution to RHS
       of level set equation *)
    let lse_rhs_gb := phi_gb in
    let* o0 := eval (extent (ilo lse_rhs_gb) (ihi lse_rhs_gb)) in
    let* o1 := eval (extent (jlo lse_rhs_gb) (jhi lse_rhs_gb)) in
    let* o2 := eval (extent (klo lse_rhs_gb) (khi lse_rhs_gb)) in
    let data_array_dims_out := [o0; o1; o2] in
    mxCreateNumericArray LSE_RHS data_array_dims_out (real_class cfg) ;;
    (* zero out LSE_RHS *)
    let* num_grid_cells := eval (int_mul o0 o1 ≫= fun p => int_mul p o2) in
    let* created := get_plhs_data LSE_RHS in
    let* zeroed :=
      eval (do_loop 0 (num_grid_cells - 1) (fun i a => poke a i zero) created) in
    set_plhs_data LSE_RHS zeroed ;;
    (* Do the actual computations in a Fortran 77 subroutine *)
    let* phi_ghostcell_width :=
      eval (mxGetPr_double GHOSTCELL_WIDTH 0 ≫= double_to_int) in
    let* fb := eval (fillbox lse_rhs_gb phi_ghostcell_width) in
    call_kernel
      {| lse_rhs := PlhsData LSE_RHS; lse_rhs_gb := lse_rhs_gb;
         phi_x_plus := PrhsData 3; phi_y_plus := PrhsData 4;
         phi_z_plus := PrhsData 5;
         grad_phi_plus_gb := grad_phi_gb;
         phi_x_minus := PrhsData 6; phi_y_minus := PrhsData 7;
         phi_z_minus := PrhsData 8;
         grad_phi_minus_gb := grad_phi_gb;
         vel_n := PrhsData 2; vel_gb := vel_gb;
         fb := fb |} ;;
    let* before := get_plhs_data LSE_RHS in
    let* after :=
      eval (LSM3D_ADD_NORMAL_VEL_TERM_TO_LSE_RHS cfg
              before lse_rhs_gb
              (mx_data PHI_X_PLUS) (mx_data PHI_Y_PLUS) (mx_data PHI_Z_PLUS)
              grad_phi_gb
              (mx_data PHI_X_MINUS) (mx_data PHI_Y_MINUS) (mx_data PHI_Z_MINUS)
              grad_phi_gb
              (mx_data NORMAL_VELOCITY) vel_gb
              fb) in
    set_plhs_data LSE_RHS after
  | _ => mexErrMsgTxt "Nine input arguments required."
  end.

End COMPUTE_NORMAL_VELOCITY_TERM_FOR_LSE_RHS_3D.


(** ** Vocabulary of the properties *)

(** Block identifiers are handed out in increasing order. *)
Definition state_ok {K} (st : mex_state K) : Prop :=
  Forall (fun b => (fst b < st_next st)%nat) (st_live st).

(** What HJ_ENO3_3D needs to get as far as its scratch allocations: the
    checks pass and the reads of [ghostcell_width] and [dX] are defined. *)
Record eno3_inputs_ok (cfg : precision) (nlhs : Z) (PHI GW DX : mxArray)
       (n0 n1 n2 w : Z) (d0 d1 d2 : real) : Prop := {
  ok_nlhs : nlhs <= 6;
  ok_dims : mx_dims PHI = [n0; n1; n2];
  ok_range : 0 <= n0 <= INT_MAX /\ 0 <= n1 <= INT_MAX /\ 0 <= n2 <= INT_MAX;
  ok_class : has_real_class cfg PHI = true;
  ok_width : mxGetPr_double GW 0 ≫= double_to_int = Some w;
  ok_dX0 : mxGetPr_double DX 0 = Some d0;
  ok_dX1 : mxGetPr_double DX 1 = Some d1;
  ok_dX2 : mxGetPr_double DX 2 = Some d2
}.

(** Every error a computation raises carries one of the given messages. *)
Definition raises_within {K A} (msgs : list string)
           (r : outcome A * mex_state K) : Prop :=
  match fst r with
  | Raised msg => msg ∈ msgs
  | _ => True
  end.

(** The same array with other dimensions declared. *)
Definition with_dims (a : mxArray) (dims : list Z) : mxArray :=
  MxArray (mx_class a) dims (mx_data a).

(** Bounds [1 .. v] moved by half the difference to [n], the quotient
    being truncated as in C. *)
Definition shifted (v n : Z) : Z * Z :=
  (1 + (n - v) ÷ 2, v + (n - v) ÷ 2).

Definition shifted_box (dims : Z * Z * Z) (n0 n1 n2 : Z) : box :=
  let '(v0, v1, v2) := dims in
  Box (fst (shifted v0 n0)) (snd (shifted v0 n0))
      (fst (shifted v1 n1)) (snd (shifted v1 n1))
      (fst (shifted v2 n2)) (snd (shifted v2 n2)).

(** Coordinate axes, and the array index along which a coordinate varies
    in the order produced by MATLAB's meshgrid: the data of the point
    [(x_i, y_j, z_k)] is stored at index [(j, i, k)]. *)
Inductive axis := axis_x | axis_y | axis_z.

Definition axis_number (a : axis) : nat :=
  match a with axis_x => 0 | axis_y => 1 | axis_z => 2 end.

Definition meshgrid_index (a : axis) : nat :=
  match a with axis_x => 1 | axis_y => 0 | axis_z => 2 end.

Definition plus_slot (a : axis) : nat :=
  match a with
  | axis_x => HJ_ENO3_3D.PHI_X_PLUS
  | axis_y => HJ_ENO3_3D.PHI_Y_PLUS
  | axis_z => HJ_ENO3_3D.PHI_Z_PLUS
  end.

Definition minus_slot (a : axis) : nat :=
  match a with
  | axis_x => HJ_ENO3_3D.PHI_X_MINUS
  | axis_y => HJ_ENO3_3D.PHI_Y_MINUS
  | axis_z => HJ_ENO3_3D.PHI_Z_MINUS
  end.

(** The kernel's parameters for the derivative along array index [p]. *)
Definition kernel_plus (args : HJ_ENO3_3D.LSM3D_HJ_ENO3_args) (p : nat) : ptr :=
  match p with
  | O => HJ_ENO3_3D.phi_x_plus args
  | S O => HJ_ENO3_3D.phi_y_plus args
  | _ => HJ_ENO3_3D.phi_z_plus args
  end.

Definition kernel_minus (args : HJ_ENO3_3D.LSM3D_HJ_ENO3_args) (p : nat) : ptr :=
  match p with
  | O => HJ_ENO3_3D.phi_x_minus args
  | S O => HJ_ENO3_3D.phi_y_minus args
  | _ => HJ_ENO3_3D.phi_z_minus args
  end.

Definition kernel_spacing (args : HJ_ENO3_3D.LSM3D_HJ_ENO3_args) (p : nat) : real :=
  match p with
  | O => HJ_ENO3_3D.dx args
  | S O => HJ_ENO3_3D.dy args
  | _ => HJ_ENO3_3D.dz args
  end.

(** ** Sample arguments *)

(** [m * 2^e] as a double. *)
Definition dbl (m e : Z) : real := binary_normalize 53 1024 m e false.

Definition scalar (x : real) : mxArray := MxArray mxDOUBLE_CLASS [1; 1] [x].

(** [m * 2^e] as a float. *)
Definition sgl (m e : Z) : real := binary_normalize 24 128 m e false.

(** The single-precision row [0 2.25].  Its eight bytes are those of the
    double 4. *)
Definition single_width : mxArray :=
  MxArray mxSINGLE_CLASS [1; 2] [sgl 0 0; sgl 9 (-2)].

Definition constant_array (c : mxClassID) (dims : list Z) (v : real) : mxArray :=
  MxArray c dims (replicate (Z.to_nat (num_elements dims)) v).

Definition sample_dX : mxArray :=
  MxArray mxDOUBLE_CLASS [1; 3] [dbl 1 (-1); dbl 1 (-2); dbl 1 (-3)].

(** A double array with all elements equal to one. *)
Definition ones (dims : list Z) : mxArray :=
  constant_array mxDOUBLE_CLASS dims (dbl 1 0).

(** A 5x5x5 field with one ghost cell on each side. *)
Definition eno3_sample : list mxArray :=
  [ones [5; 5; 5]; scalar (dbl 1 0); sample_dX].

(** A 3x3x3 problem with one ghost cell, every field constant. *)
Definition rhs_sample (phi_x_minus_dims : list Z) : list mxArray :=
  [ones [3; 3; 3]; scalar (dbl 1 0); ones [3; 3; 3];
   ones [3; 3; 3]; ones [3; 3; 3]; ones [3; 3; 3];
   ones phi_x_minus_dims; ones [3; 3; 3]; ones [3; 3; 3]].

(** A 6x5x5 level set function with two ghost cells and a 3x3x3 velocity. *)
Definition rhs_small_velocity : list mxArray :=
  [ones [6; 5; 5]; scalar (dbl 2 0); ones [3; 3; 3];
   ones [6; 5; 5]; ones [6; 5; 5]; ones [6; 5; 5];
   ones [6; 5; 5]; ones [6; 5; 5]; ones [6; 5; 5]].

(** A narrow band on a 3x3x3 grid: the points (2,2,2) and (1,1,1) are
    listed, and only (2,2,2) carries a tag within the mark. *)
Definition nb_box : box := Box 1 3 1 3 1 3.
Definition nb_tags : list Z := <[13%nat := 0]> (replicate 27 5).
Definition nb_index : list Z := [2; 1].
Definition nb_ones : list real := replicate 27 (dbl 1 0).

(** ** Vocabulary of the further properties *)

(** [a] lies within [b]. *)
Definition box_within (a b : box) : Prop :=
  ilo b <= ilo a /\ ihi a <= ihi b /\
  jlo b <= jlo a /\ jhi a <= jhi b /\
  klo b <= klo a /\ khi a <= khi b.

(** The number of cells of a box along each axis. *)
Definition box_extents (b : box) : Z * Z * Z :=
  (ihi b - ilo b + 1, jhi b - jlo b + 1, khi b - klo b + 1).

(** The buffers handed to [LSM3D_HJ_ENO3] in one call. *)
Definition eno3_buffers (args : HJ_ENO3_3D.LSM3D_HJ_ENO3_args) : list ptr :=
  [HJ_ENO3_3D.phi_x_plus args; HJ_ENO3_3D.phi_y_plus args;
   HJ_ENO3_3D.phi_z_plus args;
   HJ_ENO3_3D.phi_x_minus args; HJ_ENO3_3D.phi_y_minus args;
   HJ_ENO3_3D.phi_z_minus args;
   HJ_ENO3_3D.phi args;
   HJ_ENO3_3D.D1 args; HJ_ENO3_3D.D2 args; HJ_ENO3_3D.D3 args].

(** The arrays whose precision the normal-velocity wrapper checks, in the
    order of the checks, with the names used in the messages. *)
Definition checked_arrays (prhs : list mxArray) : list (mxArray * string) :=
  match prhs with
  | [PHI; _; NORMAL_VELOCITY; PHI_X_PLUS; PHI_Y_PLUS; PHI_Z_PLUS;
     PHI_X_MINUS; PHI_Y_MINUS; PHI_Z_MINUS] =>
      [(PHI, "phi"); (NORMAL_VELOCITY, "normal_velocity");
       (PHI_X_PLUS, "phi_x_plus"); (PHI_Y_PLUS, "phi_y_plus");
       (PHI_Z_PLUS, "phi_z_plus"); (PHI_X_MINUS, "phi_x_minus");
       (PHI_Y_MINUS, "phi_y_minus"); (PHI_Z_MINUS, "phi_z_minus")]%string
  | _ => []
  end.

(** * Properties *)


(** ** Integer helpers *)

Lemma int_checked_Some z r :
  int_checked z = Some r -> r = z /\ INT_MIN <= z <= INT_MAX.
Proof.
  unfold int_checked, int_range. intros H.
  destruct (INT_MIN <=? z) eqn:E1; destruct (z <=? INT_MAX) eqn:E2; simpl in H;
    try discriminate.
  inversion H; subst. split; [reflexivity | lia].
Qed.

Lemma int_checked_in_range z :
  INT_MIN <= z <= INT_MAX -> int_checked z = Some z.
Proof.
  intros [H1 H2]. unfold int_checked, int_range.
  apply Z.leb_le in H1, H2. rewrite H1, H2. reflexivity.
Qed.

Lemma extent_Some lo hi e : extent lo hi = Some e -> e = hi - lo + 1.
Proof.
  unfold extent, int_sub, int_add. intros H.
  destruct (int_checked (hi - lo)) as [d|] eqn:E; [|discriminate].
  apply int_checked_Some in E as [-> _].
  apply int_checked_Some in H as [-> _]. reflexivity.
Qed.

Lemma extent_from_one n : 0 <= n <= INT_MAX -> extent 1 n = Some n.
Proof.
  intros H. unfold extent, int_sub, int_add, INT_MAX in *.
  rewrite int_checked_in_range by (unfold INT_MIN, INT_MAX; lia).
  rewrite int_checked_in_range by (unfold INT_MIN, INT_MAX; lia).
  f_equal. lia.
Qed.

Lemma fillbox_Some gb w fbx :
  fillbox gb w = Some fbx ->
  fbx = Box (ilo gb + w) (ihi gb - w) (jlo gb + w) (jhi gb - w)
            (klo gb + w) (khi gb - w).
Proof.
  unfold fillbox, int_add, int_sub. intros H.
  repeat match type of H with
  | context [int_checked ?z] =>
      let E := fresh "E" in
      destruct (int_checked z) eqn:E;
        [apply int_checked_Some in E as [-> _] | discriminate H]
  end.
  congruence.
Qed.

Lemma dims3_of_three a n0 n1 n2 :
  mxGetNumberOfDimensions a = 3 -> dims3 a = Some (n0, n1, n2) ->
  mx_dims a = [n0; n1; n2].
Proof.
  unfold mxGetNumberOfDimensions, dims3.
  destruct (mx_dims a) as [|? [|? [|? [|? ?]]]]; simpl; intros H1 H2;
    try discriminate; try lia.
  congruence.
Qed.

(** ** Stepping through a MEX computation *)

Lemma mxMalloc_Some {K} size (st st' : mex_state K) id :
  mxMalloc size st = (Returned (Some id), st') ->
  exists rest, st_oracle st = true :: rest /\ id = st_next st /\
    st' = MexState (st_plhs st) ((st_next st, size) :: st_live st)
                   (S (st_next st)) rest (st_calls st).
Proof.
  unfold mxMalloc. intros H.
  destruct (st_oracle st) as [|[] rest]; simplify_eq. eauto.
Qed.

(** ** Precision checks *)

Lemma check_precision_mismatch {K} cfg a name (st : mex_state K) :
  has_real_class cfg a = false ->
  check_precision cfg a name st = (Raised (precision_message cfg name), st).
Proof. intros H. unfold check_precision. rewrite H. reflexivity. Qed.

Lemma HJ_precision_mismatch cfg nlhs prhs a st :
  prhs !! 0%nat = Some a -> has_real_class cfg a = false ->
  exists msg, HJ_ENO3_3D.mexFunction cfg nlhs prhs st = (Raised msg, st).
Proof.
  intros Ha Hm. unfold HJ_ENO3_3D.mexFunction.
  destruct prhs as [|PHI [|GW [|DX [|]]]]; try (eexists; reflexivity).
  simpl in Ha. simplify_eq.
  destruct (6 <? nlhs); [eexists; reflexivity|].
  destruct (negb _); [eexists; reflexivity|].
  unfold bind. rewrite check_precision_mismatch by done. eauto.
Qed.

Lemma bind_Raised {K A B} (m : M K A) (f : A -> M K B) st msg st' :
  m st = (Raised msg, st') -> bind m f st = (Raised msg, st').
Proof. intros H. unfold bind. rewrite H. reflexivity. Qed.

Lemma bind_check_ok {K B} cfg a name (f : unit -> M K B) st :
  has_real_class cfg a = true ->
  bind (check_precision cfg a name) f st = f tt st.
Proof. intros H. unfold bind, check_precision. rewrite H. reflexivity. Qed.

Ltac raised_now :=
  lazymatch goal with
  | |- exists _, mexErrMsgTxt ?m ?st = _ => exists m; reflexivity
  end.

Lemma NV_precision_mismatch cfg nlhs prhs i a st :
  i ∈ COMPUTE_NORMAL_VELOCITY_TERM_FOR_LSE_RHS_3D.real_arguments ->
  prhs !! i = Some a -> has_real_class cfg a = false ->
  exists msg, COMPUTE_NORMAL_VELOCITY_TERM_FOR_LSE_RHS_3D.mexFunction cfg nlhs prhs st = (Raised msg, st).
Proof.
  intros Hi Ha Hm. unfold COMPUTE_NORMAL_VELOCITY_TERM_FOR_LSE_RHS_3D.mexFunction.
  destruct prhs as [|a0 [|a1 [|a2 [|a3 [|a4 [|a5 [|a6 [|a7 [|a8 [|]]]]]]]]]];
    try raised_now.
  destruct (1 <? nlhs); [raised_now|].
  repeat match goal with
  | |- exists _, bind (check_precision cfg ?x ?n) _ _ = _ =>
      destruct (has_real_class cfg x) eqn:?;
        [rewrite bind_check_ok by assumption
        |eexists; apply bind_Raised, check_precision_mismatch; assumption]
  end.
  exfalso. unfold COMPUTE_NORMAL_VELOCITY_TERM_FOR_LSE_RHS_3D.real_arguments in Hi.
  repeat (apply elem_of_cons in Hi as [->|Hi]; [simpl in Ha; congruence|]).
  by apply elem_of_nil in Hi.
Qed.

(** ** Scratch memory *)

Lemma filter_other_blocks (live : list (nat * Z)) (n id : nat) :
  Forall (fun b => (fst b < n)%nat) live -> (n <= id)%nat ->
  filter (fun b => fst b ≠ id) live = live.
Proof.
  intros Hall Hle. induction Hall as [|b l Hb _ IH]; [reflexivity|].
  rewrite filter_cons_True by lia. by rewrite IH.
Qed.

Ltac HJ_validate Hok :=
  destruct Hok as [Hnlhs Hdims (Hr0 & Hr1 & Hr2) Hclass Hw Hd0 Hd1 Hd2];
  unfold HJ_ENO3_3D.mexFunction;
  rewrite (proj2 (Z.ltb_ge 6 _)) by lia;
  unfold mxGetNumberOfDimensions, dims3; rewrite Hdims; simpl;
  unfold bind, check_precision, eval, ret; rewrite Hclass, Hw, Hd1, Hd0, Hd2;
  simpl; rewrite !extent_from_one by assumption.

Lemma HJ_run_returns cfg nlhs PHI GW DX n0 n1 n2 w d0 d1 d2 fbx rest
      (st : mex_state HJ_ENO3_3D.LSM3D_HJ_ENO3_args) :
  eno3_inputs_ok cfg nlhs PHI GW DX n0 n1 n2 w d0 d1 d2 ->
  fillbox (Box 1 n0 1 n1 1 n2) w = Some fbx ->
  st_oracle st = true :: true :: true :: rest ->
  exists st' args,
    HJ_ENO3_3D.mexFunction cfg nlhs [PHI; GW; DX] st = (Returned tt, st')
    /\ st_calls st' = args :: st_calls st
    /\ HJ_ENO3_3D.fb args = fbx.
Proof.
  intros Hok Hfb Hor. HJ_validate Hok.
  unfold mxMalloc. simpl. rewrite Hor. simpl. rewrite Hfb. simpl.
  eexists _, _. split; [reflexivity|]. simpl. split; reflexivity.
Qed.

(** ** Inversion of the monadic steps *)

Lemma bind_Returned {K A B} (m : M K A) (f : A -> M K B) st b st' :
  bind m f st = (Returned b, st') ->
  exists a st1, m st = (Returned a, st1) /\ f a st1 = (Returned b, st').
Proof.
  unfold bind. destruct (m st) as [[a| |] st1]; intros H; try discriminate.
  eauto.
Qed.

Lemma bind_eval_Returned {K A B} (o : option A) (f : A -> M K B) st b st' :
  bind (eval o) f st = (Returned b, st') ->
  exists a, o = Some a /\ f a st = (Returned b, st').
Proof.
  unfold bind, eval. destruct o; intros H; try discriminate. eauto.
Qed.

Lemma bind_check_Returned {K B} cfg a name (f : unit -> M K B) st b st' :
  bind (check_precision cfg a name) f st = (Returned b, st') ->
  has_real_class cfg a = true /\ f tt st = (Returned b, st').
Proof.
  unfold bind, check_precision, ret, mexErrMsgTxt.
  destruct (has_real_class cfg a); intros H; try discriminate. eauto.
Qed.

Lemma guard_Returned {K B} (c : bool) msg (k : M K B) st b st' :
  (if c then mexErrMsgTxt msg else k) st = (Returned b, st') ->
  c = false /\ k st = (Returned b, st').
Proof. destruct c; intros H; [discriminate H | auto]. Qed.

Lemma bind_create_inv {K B} slot dims c (f : unit -> M K B) (st : mex_state K) r :
  bind (mxCreateNumericArray slot dims c) f st = r ->
  f tt (MexState (<[slot := new_numeric_array dims c]> (st_plhs st))
                 (st_live st) (st_next st) (st_oracle st) (st_calls st)) = r.
Proof. intros H. exact H. Qed.

Lemma bind_call_kernel_inv {K B} (args : K) (f : unit -> M K B) (st : mex_state K) r :
  bind (call_kernel args) f st = r ->
  f tt (MexState (st_plhs st) (st_live st) (st_next st) (st_oracle st)
                 (args :: st_calls st)) = r.
Proof. intros H. exact H. Qed.

Lemma bind_mxFree_inv {K B} id (f : unit -> M K B) (st : mex_state K) r :
  bind (mxFree id) f st = r ->
  f tt (MexState (st_plhs st) (filter (fun b => fst b ≠ id) (st_live st))
                 (st_next st) (st_oracle st) (st_calls st)) = r.
Proof. intros H. exact H. Qed.

Lemma mxFree_inv {K} id (st st' : mex_state K) u :
  mxFree id st = (Returned u, st') ->
  st' = MexState (st_plhs st) (filter (fun b => fst b ≠ id) (st_live st))
                 (st_next st) (st_oracle st) (st_calls st).
Proof. unfold mxFree. intros H. by injection H. Qed.

Lemma bind_mxMalloc_Returned {K B} size (f : option nat -> M K B) st b st' :
  bind (mxMalloc size) f st = (Returned b, st') ->
  exists p st1, mxMalloc size st = (Returned p, st1) /\
    f p st1 = (Returned b, st').
Proof. apply bind_Returned. Qed.

Lemma HJ_scratch_failure_raises (p1 p2 p3 : option nat) msg
      (st st' : mex_state HJ_ENO3_3D.LSM3D_HJ_ENO3_args) (u : unit) :
  (HJ_ENO3_3D.free_if_allocated p1 ;; HJ_ENO3_3D.free_if_allocated p2 ;;
   HJ_ENO3_3D.free_if_allocated p3 ;; mexErrMsgTxt msg) st ≠ (Returned u, st').
Proof. destruct p1, p2, p3; discriminate. Qed.

Ltac reduce_state H :=
  cbn beta iota delta [st_plhs st_live st_next st_oracle st_calls] in H.

Ltac mex_inv H :=
  repeat first
    [ match type of H with
      | (if _ then mexErrMsgTxt _ else _) _ = (Returned _, _) =>
          let Hc := fresh "Hguard" in
          apply guard_Returned in H as [Hc H]
      | bind (check_precision _ _ _) _ _ = (Returned _, _) =>
          let Hc := fresh "Hclass" in
          apply bind_check_Returned in H as [Hc H]
      | bind (eval _) _ _ = (Returned _, _) =>
          let x := fresh "x" in
          let Hx := fresh "Hx" in
          apply bind_eval_Returned in H as (x & Hx & H)
      | bind (mxCreateNumericArray _ _ _) _ _ = _ =>
          apply bind_create_inv in H; reduce_state H
      | bind (call_kernel _) _ _ = _ =>
          apply bind_call_kernel_inv in H; reduce_state H
      | bind (mxFree _) _ _ = _ =>
          apply bind_mxFree_inv in H; reduce_state H
      | bind (mxMalloc _) _ _ = (Returned _, _) =>
          let p := fresh "p" in
          let st1 := fresh "st" in
          let Hp := fresh "Hp" in
          apply bind_mxMalloc_Returned in H as (p & st1 & Hp & H)
      | (let (_, _) := ?p in _) _ = _ => destruct p
      | (let '(_, _) := ?p in _) _ = _ => destruct p
      end ].

(** ** What a returning call of HJ_ENO3_3D has done *)

Lemma HJ_returned_inv cfg nlhs prhs (st st' : mex_state HJ_ENO3_3D.LSM3D_HJ_ENO3_args) :
  HJ_ENO3_3D.mexFunction cfg nlhs prhs st = (Returned tt, st') ->
  exists PHI GW DX n0 n1 n2 w d0 d1 d2 fbx,
    prhs = [PHI; GW; DX]
    /\ mx_dims PHI = [n0; n1; n2]
    /\ mxGetPr_double GW 0 ≫= double_to_int = Some w
    /\ mxGetPr_double DX 0 = Some d0
    /\ mxGetPr_double DX 1 = Some d1
    /\ mxGetPr_double DX 2 = Some d2
    /\ fillbox (Box 1 n0 1 n1 1 n2) w = Some fbx
    /\ st_plhs st' =
         <[HJ_ENO3_3D.PHI_Z_MINUS := new_numeric_array [n0; n1; n2] (real_class cfg)]>
         (<[HJ_ENO3_3D.PHI_Y_MINUS := new_numeric_array [n0; n1; n2] (real_class cfg)]>
         (<[HJ_ENO3_3D.PHI_X_MINUS := new_numeric_array [n0; n1; n2] (real_class cfg)]>
         (<[HJ_ENO3_3D.PHI_Z_PLUS := new_numeric_array [n0; n1; n2] (real_class cfg)]>
         (<[HJ_ENO3_3D.PHI_Y_PLUS := new_numeric_array [n0; n1; n2] (real_class cfg)]>
         (<[HJ_ENO3_3D.PHI_X_PLUS := new_numeric_array [n0; n1; n2] (real_class cfg)]>
            (st_plhs st))))))
    /\ st_calls st' =
         {| HJ_ENO3_3D.phi_x_plus := PlhsData HJ_ENO3_3D.PHI_Y_PLUS;
            HJ_ENO3_3D.phi_y_plus := PlhsData HJ_ENO3_3D.PHI_X_PLUS;
            HJ_ENO3_3D.phi_z_plus := PlhsData HJ_ENO3_3D.PHI_Z_PLUS;
            HJ_ENO3_3D.grad_phi_plus_gb := Box 1 n0 1 n1 1 n2;
            HJ_ENO3_3D.phi_x_minus := PlhsData HJ_ENO3_3D.PHI_Y_MINUS;
            HJ_ENO3_3D.phi_y_minus := PlhsData HJ_ENO3_3D.PHI_X_MINUS;
            HJ_ENO3_3D.phi_z_minus := PlhsData HJ_ENO3_3D.PHI_Z_MINUS;
            HJ_ENO3_3D.grad_phi_minus_gb := Box 1 n0 1 n1 1 n2;
            HJ_ENO3_3D.phi := PrhsData 0; HJ_ENO3_3D.phi_gb := Box 1 n0 1 n1 1 n2;
            HJ_ENO3_3D.D1 := Scratch (st_next st); HJ_ENO3_3D.D1_gb := Box 1 n0 1 n1 1 n2;
            HJ_ENO3_3D.D2 := Scratch (S (st_next st)); HJ_ENO3_3D.D2_gb := Box 1 n0 1 n1 1 n2;
            HJ_ENO3_3D.D3 := Scratch (S (S (st_next st))); HJ_ENO3_3D.D3_gb := Box 1 n0 1 n1 1 n2;
            HJ_ENO3_3D.fb := fbx;
            HJ_ENO3_3D.dx := double_to_LSMLIB_REAL cfg d1;
            HJ_ENO3_3D.dy := double_to_LSMLIB_REAL cfg d0;
            HJ_ENO3_3D.dz := double_to_LSMLIB_REAL cfg d2 |} :: st_calls st.
Proof.
  intros H. unfold HJ_ENO3_3D.mexFunction in H.
  destruct prhs as [|PHI [|GW [|DX [|]]]];
    try (unfold mexErrMsgTxt in H; discriminate H).
  mex_inv H.
  destruct p as [b1|];
    [destruct p0 as [b2|]; [destruct p1 as [b3|]|]|]; cbv iota in H.
  2-4: exfalso; exact (HJ_scratch_failure_raises _ _ _ _ _ _ _ H).
  mex_inv H.
  apply mxFree_inv in H as ->.
  apply mxMalloc_Some in Hp as (r1 & Ho1 & -> & ->).
  apply mxMalloc_Some in Hp0 as (r2 & Ho2 & -> & ->).
  apply mxMalloc_Some in Hp1 as (r3 & Ho3 & -> & ->).
  cbn beta iota delta [st_plhs st_live st_next st_oracle st_calls].
  repeat match goal with
  | E : extent _ _ = Some _ |- _ => apply extent_Some in E; simpl in E; subst
  end.
  match goal with
  | Hn : negb (mxGetNumberOfDimensions PHI =? 3) = false,
    Hd : dims3 PHI = Some (?n0, ?n1, ?n2),
    Hw : mxGetPr_double GW 0 ≫= double_to_int = Some ?w,
    H0 : mxGetPr_double DX 0 = Some ?d0,
    H1 : mxGetPr_double DX 1 = Some ?d1,
    H2 : mxGetPr_double DX 2 = Some ?d2,
    Hf : fillbox _ ?w = Some ?fbx |- _ =>
      apply negb_false_iff, Z.eqb_eq in Hn;
      pose proof (dims3_of_three _ _ _ _ Hn Hd) as Hdims;
      replace (n0 - 1 + 1) with n0 by lia;
      replace (n1 - 1 + 1) with n1 by lia;
      replace (n2 - 1 + 1) with n2 by lia;
      exists PHI, GW, DX, n0, n1, n2, w, d0, d1, d2, fbx
  end.
  repeat (split; [first [assumption | reflexivity]|]). reflexivity.
Qed.

Lemma normalize_dims_three n0 n1 n2 a :
  mx_dims a = [n0; n1; n2] -> mx_wf a -> normalize_dims [n0; n1; n2] = [n0; n1; n2].
Proof. intros Hd (_ & Hn & _). rewrite Hd in Hn. exact Hn. Qed.

(** ** Loops and array cells *)

Lemma do_from_inv {S} (P : S -> Prop) (body : Z -> S -> option S) n i s s' :
  do_from n i body s = Some s' ->
  P s ->
  (forall j t t', i <= j < i + Z.of_nat n -> P t -> body j t = Some t' -> P t') ->
  P s'.
Proof.
  revert i s. induction n as [|n IH]; intros i s Hrun Hs Hstep; simpl in Hrun.
  - by simplify_eq.
  - destruct (body i s) as [t|] eqn:Hb; [|discriminate].
    apply (IH (i + 1) t Hrun).
    + apply (Hstep i s t); [lia | assumption | assumption].
    + intros j u u' Hj. apply Hstep. lia.
Qed.

Lemma do_loop_inv {S} (P : S -> Prop) (body : Z -> S -> option S) lo hi s s' :
  do_loop lo hi body s = Some s' ->
  P s ->
  (forall j t t', lo <= j <= hi -> P t -> body j t = Some t' -> P t') ->
  P s'.
Proof.
  unfold do_loop. intros Hrun Hs Hstep.
  apply (do_from_inv P body _ _ _ _ Hrun Hs).
  intros j t t' Hj. apply Hstep. lia.
Qed.

(** A cell keeps its value unless the store hits its position. *)
Lemma store_frame {A} (a a' : list A) gb i j k v :
  store a gb i j k v = Some a' ->
  length a' = length a /\
  forall o : nat, offset gb i j k <> Z.of_nat o -> a' !! o = a !! o.
Proof.
  unfold store. intros H.
  destruct (_ && _) eqn:Hr; [|discriminate]. simplify_eq.
  apply andb_true_iff in Hr as [H0 H1]. apply Z.leb_le in H0.
  split; [apply length_insert|].
  intros o Ho. apply list_lookup_insert_ne. lia.
Qed.

Lemma poke_zero_replicate n i a' :
  COMPUTE_NORMAL_VELOCITY_TERM_FOR_LSE_RHS_3D.poke (replicate n zero) i zero = Some a' -> a' = replicate n zero.
Proof.
  unfold COMPUTE_NORMAL_VELOCITY_TERM_FOR_LSE_RHS_3D.poke. intros H. destruct (_ && _); [|discriminate].
  simplify_eq. apply insert_replicate.
Qed.

Lemma zero_out_replicate n cells a' :
  do_loop 0 (cells - 1) (fun i a => COMPUTE_NORMAL_VELOCITY_TERM_FOR_LSE_RHS_3D.poke a i zero) (replicate n zero) = Some a' ->
  a' = replicate n zero.
Proof.
  intros H.
  apply (do_loop_inv (fun a => a = replicate n zero) _ _ _ _ _ H); [reflexivity|].
  intros j t t' _ -> Hp. by apply poke_zero_replicate in Hp.
Qed.

(** Distinct points of a box are stored at distinct positions. *)
Lemma offset_inj gb i j k i' j' k' :
  in_box gb i j k -> in_box gb i' j' k' ->
  offset gb i j k = offset gb i' j' k' ->
  i = i' /\ j = j' /\ k = k'.
Proof.
  unfold in_box, offset. destruct gb as [il ih jl jh kl kh]; simpl.
  intros (Hi & Hj & Hk) (Hi' & Hj' & Hk') Heq.
  set (ni := ih - il + 1) in *. set (nj := jh - jl + 1) in *.
  assert (Hni : 0 < ni) by (unfold ni; lia).
  assert (Hnj : 0 < nj) by (unfold nj; lia).
  assert (Hb : (j - jl) + nj * (k - kl) = (j' - jl) + nj * (k' - kl)
               /\ i - il = i' - il).
  { assert (Hd : (i - il) - (i' - il)
                 = ni * (((j' - jl) + nj * (k' - kl)) - ((j - jl) + nj * (k - kl))))
      by lia.
    assert (- ni < (i - il) - (i' - il) < ni) by (unfold ni; lia).
    assert (((j' - jl) + nj * (k' - kl)) - ((j - jl) + nj * (k - kl)) = 0) by nia.
    lia. }
  destruct Hb as [Hb Hi0].
  assert (Hc : k - kl = k' - kl /\ j - jl = j' - jl).
  { assert (Hd : (j - jl) - (j' - jl) = nj * ((k' - kl) - (k - kl))) by lia.
    assert (- nj < (j - jl) - (j' - jl) < nj) by (unfold nj; lia).
    assert ((k' - kl) - (k - kl) = 0) by nia.
    lia. }
  lia.
Qed.

(** The spec-modelled kernel writes only at points of the fill box. *)
Lemma normal_vel_kernel_frame cfg rhs gb xp yp zp pgb xm ym zm mgb vel vgb fb out :
  LSM3D_ADD_NORMAL_VEL_TERM_TO_LSE_RHS cfg rhs gb xp yp zp pgb xm ym zm mgb
                                       vel vgb fb = Some out ->
  length out = length rhs /\
  forall o : nat,
    (forall i j k, in_box fb i j k -> offset gb i j k <> Z.of_nat o) ->
    out !! o = rhs !! o.
Proof.
  unfold LSM3D_ADD_NORMAL_VEL_TERM_TO_LSE_RHS. intros H.
  set (P := fun (o : nat) (t : list real) =>
    length t = length rhs /\
    ((forall i j k, in_box fb i j k -> offset gb i j k <> Z.of_nat o) ->
     t !! o = rhs !! o)).
  assert (Hinv : forall o, P o out).
  { intros o.
    apply (do_loop_inv (P o) _ _ _ _ _ H); [done|].
    intros k t t' Hk Ht Hrun.
    apply (do_loop_inv (P o) _ _ _ _ _ Hrun); [done|].
    clear Hrun. intros j u u' Hj Hu Hrun.
    apply (do_loop_inv (P o) _ _ _ _ _ Hrun); [done|].
    clear Hrun. intros i v v' Hi [Hlen Hv] Hrun.
    simplify_option_eq.
    match goal with
    | Hs : store _ _ _ _ _ _ = Some _ |- _ =>
        apply store_frame in Hs as [Hl Hf]
    end.
    split; [congruence|].
    intros Ho. rewrite Hf; [by apply Hv|]. apply Ho. unfold in_box. lia. }
  split.
  - apply (Hinv 0%nat).
  - intros o Ho. by apply (Hinv o).
Qed.

(** ** What a returning call of the normal-velocity wrapper has done *)

Lemma bind_get_plhs_Returned {B} slot (f : list real -> COMPUTE_NORMAL_VELOCITY_TERM_FOR_LSE_RHS_3D.MEX B) st b st' :
  bind (COMPUTE_NORMAL_VELOCITY_TERM_FOR_LSE_RHS_3D.get_plhs_data slot) f st = (Returned b, st') ->
  exists a, st_plhs st !! slot = Some a /\ f (mx_data a) st = (Returned b, st').
Proof.
  unfold bind, COMPUTE_NORMAL_VELOCITY_TERM_FOR_LSE_RHS_3D.get_plhs_data.
  destruct (st_plhs st !! slot); intros H; try discriminate. eauto.
Qed.

Lemma set_plhs_Returned slot data
      (st st' : mex_state COMPUTE_NORMAL_VELOCITY_TERM_FOR_LSE_RHS_3D.LSM3D_ADD_NORMAL_VEL_TERM_TO_LSE_RHS_args) u :
  COMPUTE_NORMAL_VELOCITY_TERM_FOR_LSE_RHS_3D.set_plhs_data slot data st = (Returned u, st') ->
  exists a, st_plhs st !! slot = Some a /\
    st' = MexState (<[slot := MxArray (mx_class a) (mx_dims a) data]> (st_plhs st))
                   (st_live st) (st_next st) (st_oracle st) (st_calls st).
Proof.
  unfold COMPUTE_NORMAL_VELOCITY_TERM_FOR_LSE_RHS_3D.set_plhs_data.
  destruct (st_plhs st !! slot); intros H; simplify_eq. eauto.
Qed.

Lemma bind_set_plhs_Returned {B} slot data (f : unit -> COMPUTE_NORMAL_VELOCITY_TERM_FOR_LSE_RHS_3D.MEX B) st b st' :
  bind (COMPUTE_NORMAL_VELOCITY_TERM_FOR_LSE_RHS_3D.set_plhs_data slot data) f st = (Returned b, st') ->
  exists a, st_plhs st !! slot = Some a /\
    f tt (MexState (<[slot := MxArray (mx_class a) (mx_dims a) data]> (st_plhs st))
                   (st_live st) (st_next st) (st_oracle st) (st_calls st))
    = (Returned b, st').
Proof.
  intros H. apply bind_Returned in H as ([] & st1 & H1 & H).
  apply set_plhs_Returned in H1 as (a & Ha & ->). eauto.
Qed.

Ltac nv_inv H :=
  repeat first
    [ progress mex_inv H
    | match type of H with
      | bind (COMPUTE_NORMAL_VELOCITY_TERM_FOR_LSE_RHS_3D.get_plhs_data _) _ _ = (Returned _, _) =>
          let a := fresh "a" in
          let Ha := fresh "Ha" in
          apply bind_get_plhs_Returned in H as (a & Ha & H);
          reduce_state H; reduce_state Ha;
          rewrite lookup_insert_eq in Ha; injection Ha as <-
      | bind (COMPUTE_NORMAL_VELOCITY_TERM_FOR_LSE_RHS_3D.set_plhs_data _ _) _ _ = (Returned _, _) =>
          let a := fresh "a" in
          let Ha := fresh "Ha" in
          apply bind_set_plhs_Returned in H as (a & Ha & H);
          reduce_state H; reduce_state Ha;
          rewrite lookup_insert_eq in Ha; injection Ha as <-
      end ].

Lemma NV_returned_inv cfg nlhs prhs
      (st st' : mex_state COMPUTE_NORMAL_VELOCITY_TERM_FOR_LSE_RHS_3D.LSM3D_ADD_NORMAL_VEL_TERM_TO_LSE_RHS_args) :
  COMPUTE_NORMAL_VELOCITY_TERM_FOR_LSE_RHS_3D.mexFunction cfg nlhs prhs st = (Returned tt, st') ->
  exists PHI GW VEL XP YP ZP XM YM ZM n0 n1 n2 vel_dims grad_dims
         vel_gb grad_phi_gb w fbx after,
    prhs = [PHI; GW; VEL; XP; YP; ZP; XM; YM; ZM]
    /\ mx_dims PHI = [n0; n1; n2]
    /\ dims3 VEL = Some vel_dims
    /\ COMPUTE_NORMAL_VELOCITY_TERM_FOR_LSE_RHS_3D.centered_box vel_dims (Box 1 n0 1 n1 1 n2) = Some vel_gb
    /\ dims3 XP = Some grad_dims
    /\ COMPUTE_NORMAL_VELOCITY_TERM_FOR_LSE_RHS_3D.centered_box grad_dims (Box 1 n0 1 n1 1 n2) = Some grad_phi_gb
    /\ mxGetPr_double GW 0 ≫= double_to_int = Some w
    /\ fillbox (Box 1 n0 1 n1 1 n2) w = Some fbx
    /\ LSM3D_ADD_NORMAL_VEL_TERM_TO_LSE_RHS cfg
         (replicate (Z.to_nat (num_elements [n0; n1; n2])) zero)
         (Box 1 n0 1 n1 1 n2)
         (mx_data XP) (mx_data YP) (mx_data ZP) grad_phi_gb
         (mx_data XM) (mx_data YM) (mx_data ZM) grad_phi_gb
         (mx_data VEL) vel_gb fbx = Some after
    /\ st_plhs st' =
         <[COMPUTE_NORMAL_VELOCITY_TERM_FOR_LSE_RHS_3D.LSE_RHS := MxArray (real_class cfg) (normalize_dims [n0; n1; n2]) after]>
           (st_plhs st)
    /\ st_calls st' =
         {| COMPUTE_NORMAL_VELOCITY_TERM_FOR_LSE_RHS_3D.lse_rhs := PlhsData COMPUTE_NORMAL_VELOCITY_TERM_FOR_LSE_RHS_3D.LSE_RHS;
            COMPUTE_NORMAL_VELOCITY_TERM_FOR_LSE_RHS_3D.lse_rhs_gb := Box 1 n0 1 n1 1 n2;
            COMPUTE_NORMAL_VELOCITY_TERM_FOR_LSE_RHS_3D.phi_x_plus := PrhsData 3;
            COMPUTE_NORMAL_VELOCITY_TERM_FOR_LSE_RHS_3D.phi_y_plus := PrhsData 4;
            COMPUTE_NORMAL_VELOCITY_TERM_FOR_LSE_RHS_3D.phi_z_plus := PrhsData 5;
            COMPUTE_NORMAL_VELOCITY_TERM_FOR_LSE_RHS_3D.grad_phi_plus_gb := grad_phi_gb;
            COMPUTE_NORMAL_VELOCITY_TERM_FOR_LSE_RHS_3D.phi_x_minus := PrhsData 6;
            COMPUTE_NORMAL_VELOCITY_TERM_FOR_LSE_RHS_3D.phi_y_minus := PrhsData 7;
            COMPUTE_NORMAL_VELOCITY_TERM_FOR_LSE_RHS_3D.phi_z_minus := PrhsData 8;
            COMPUTE_NORMAL_VELOCITY_TERM_FOR_LSE_RHS_3D.grad_phi_minus_gb := grad_phi_gb;
            COMPUTE_NORMAL_VELOCITY_TERM_FOR_LSE_RHS_3D.vel_n := PrhsData 2;
            COMPUTE_NORMAL_VELOCITY_TERM_FOR_LSE_RHS_3D.vel_gb := vel_gb;
            COMPUTE_NORMAL_VELOCITY_TERM_FOR_LSE_RHS_3D.fb := fbx |} :: st_calls st.
Proof.
  intros H. unfold COMPUTE_NORMAL_VELOCITY_TERM_FOR_LSE_RHS_3D.mexFunction in H.
  destruct prhs as [|PHI [|GW [|VEL [|XP [|YP [|ZP [|XM [|YM [|ZM [|]]]]]]]]]];
    try (unfold mexErrMsgTxt in H; discriminate H).
  nv_inv H.
  apply set_plhs_Returned in H as (a & Ha & ->).
  reduce_state Ha. rewrite lookup_insert_eq in Ha. injection Ha as <-.
  cbn beta iota delta [st_plhs st_live st_next st_oracle st_calls
                       mx_class mx_dims mx_data new_numeric_array] in *.
  rewrite !insert_insert_eq.
  repeat match goal with
  | E : extent _ _ = Some _ |- _ => apply extent_Some in E; simpl in E; subst
  end.
  match goal with
  | Hn : negb (mxGetNumberOfDimensions PHI =? 3) = false,
    Hd : dims3 PHI = Some (?n0, ?n1, ?n2),
    Hv : dims3 VEL = Some ?vd, Hvb : COMPUTE_NORMAL_VELOCITY_TERM_FOR_LSE_RHS_3D.centered_box ?vd _ = Some ?vgb,
    Hg : dims3 XP = Some ?gd, Hgb : COMPUTE_NORMAL_VELOCITY_TERM_FOR_LSE_RHS_3D.centered_box ?gd _ = Some ?ggb,
    Hw : mxGetPr_double GW 0 ≫= double_to_int = Some ?w,
    Hf : fillbox _ ?w = Some ?fbx,
    Hz : do_loop 0 _ _ _ = Some ?zeroed,
    Hk : LSM3D_ADD_NORMAL_VEL_TERM_TO_LSE_RHS _ _ _ _ _ _ _ _ _ _ _ _ _ _ = Some ?after
    |- _ =>
      apply negb_false_iff, Z.eqb_eq in Hn;
      pose proof (dims3_of_three _ _ _ _ Hn Hd) as Hdims;
      apply zero_out_replicate in Hz; subst zeroed;
      revert Hk;
      replace (n0 - 1 + 1) with n0 by lia;
      replace (n1 - 1 + 1) with n1 by lia;
      replace (n2 - 1 + 1) with n2 by lia;
      intros Hk;
      exists PHI, GW, VEL, XP, YP, ZP, XM, YM, ZM, n0, n1, n2, vd, gd,
             vgb, ggb, w, fbx, after
  end.
  repeat (split; [first [assumption | reflexivity]|]). reflexivity.
Qed.

(** ** Cells of a box *)

Lemma offset_bounds gb i j k :
  in_box gb i j k ->
  0 <= offset gb i j k
     < (ihi gb - ilo gb + 1) * ((jhi gb - jlo gb + 1) * (khi gb - klo gb + 1)).
Proof.
  unfold in_box, offset. destruct gb as [il ih jl jh kl kh]; simpl.
  intros (Hi & Hj & Hk).
  set (ni := ih - il + 1). set (nj := jh - jl + 1). set (nk := kh - kl + 1).
  assert (0 <= i - il < ni) by (unfold ni; lia).
  assert (0 <= j - jl < nj) by (unfold nj; lia).
  assert (0 <= k - kl < nk) by (unfold nk; lia).
  assert (0 <= (j - jl) + nj * (k - kl) <= nj * nk - 1) by nia.
  nia.
Qed.

(** A point of the ghost box that is outside the fill box is never the
    target of a write addressed to a point of the fill box. *)
Lemma outside_fillbox_not_hit n0 n1 n2 w fbx i j k i' j' k' :
  fillbox (Box 1 n0 1 n1 1 n2) w = Some fbx ->
  in_box (Box 1 n0 1 n1 1 n2) i j k -> ~ in_box fbx i j k ->
  in_box fbx i' j' k' ->
  offset (Box 1 n0 1 n1 1 n2) i' j' k' <> offset (Box 1 n0 1 n1 1 n2) i j k.
Proof.
  intros Hfb Hgb Hout Hin Heq.
  apply fillbox_Some in Hfb. simpl in Hfb. subst fbx.
  destruct (Z_lt_le_dec w 0) as [Hw|Hw].
  - apply Hout. unfold in_box in *. simpl in *. lia.
  - assert (Hin' : in_box (Box 1 n0 1 n1 1 n2) i' j' k')
      by (unfold in_box in *; simpl in *; lia).
    destruct (offset_inj _ _ _ _ _ _ _ Hin' Hgb Heq) as (-> & -> & ->).
    by apply Hout.
Qed.

(** ** The narrow-band loop *)

Lemma narrow_band_loop_frame term lse_rhs gb index_x index_y index_z
      nlo nhi narrow_band nb_gb mark_fb out :
  narrow_band_loop term lse_rhs gb index_x index_y index_z nlo nhi
                   narrow_band nb_gb mark_fb = Some out ->
  length out = length lse_rhs /\
  forall o : nat,
    (forall l i j k tag,
        nlo <= l <= nhi ->
        index_x !! Z.to_nat (l - nlo) = Some i ->
        index_y !! Z.to_nat (l - nlo) = Some j ->
        index_z !! Z.to_nat (l - nlo) = Some k ->
        load narrow_band nb_gb i j k = Some tag ->
        tag <= mark_fb ->
        offset gb i j k <> Z.of_nat o) ->
    out !! o = lse_rhs !! o.
Proof.
  unfold narrow_band_loop. intros H.
  set (P := fun (o : nat) (t : list real) =>
    length t = length lse_rhs /\
    ((forall l i j k tag,
        nlo <= l <= nhi ->
        index_x !! Z.to_nat (l - nlo) = Some i ->
        index_y !! Z.to_nat (l - nlo) = Some j ->
        index_z !! Z.to_nat (l - nlo) = Some k ->
        load narrow_band nb_gb i j k = Some tag ->
        tag <= mark_fb ->
        offset gb i j k <> Z.of_nat o) ->
     t !! o = lse_rhs !! o)).
  assert (Hinv : forall o, P o out).
  { intros o.
    apply (do_loop_inv (P o) _ _ _ _ _ H); [done|].
    intros l t t' Hl [Hlen Ht] Hrun.
    destruct (index_x !! Z.to_nat (l - nlo)) as [i|] eqn:Hi; [|discriminate].
    destruct (index_y !! Z.to_nat (l - nlo)) as [j|] eqn:Hj; [|discriminate].
    destruct (index_z !! Z.to_nat (l - nlo)) as [k|] eqn:Hk; [|discriminate].
    simpl in Hrun.
    destruct (load narrow_band nb_gb i j k) as [tag|] eqn:Htag; [|discriminate].
    simpl in Hrun.
    destruct (tag <=? mark_fb) eqn:Hle.
    - apply Z.leb_le in Hle.
      destruct (load t gb i j k) as [old|]; [|discriminate]. simpl in Hrun.
      destruct (term i j k old) as [new|]; [|discriminate]. simpl in Hrun.
      apply store_frame in Hrun as [Hl' Hf].
      split; [congruence|].
      intros Ho. rewrite Hf; [by apply Ht|]. by apply (Ho l i j k tag).
    - by simplify_eq. }
  split.
  - apply (Hinv 0%nat).
  - intros o Ho. by apply (Hinv o).
Qed.

(** ** Errors a call can raise *)

Lemma raises_within_bind {K A B} msgs (m : M K A) (f : A -> M K B) st :
  raises_within msgs (m st) ->
  (forall a st1, m st = (Returned a, st1) -> raises_within msgs (f a st1)) ->
  raises_within msgs (bind m f st).
Proof.
  unfold raises_within, bind. intros Hm Hf.
  destruct (m st) as [[a| |] st1]; simpl in *;
    [by apply Hf | assumption | exact I].
Qed.

Lemma raises_within_eval {K A} msgs (o : option A) (st : mex_state K) :
  raises_within msgs (eval o st).
Proof. destruct o; exact I. Qed.

Lemma raises_within_err {K A} msgs msg (st : mex_state K) :
  msg ∈ msgs -> raises_within msgs (@mexErrMsgTxt K A msg st).
Proof. intros H. exact H. Qed.

Lemma raises_within_check {K} msgs cfg a name (st : mex_state K) :
  precision_message cfg name ∈ msgs ->
  raises_within msgs (check_precision cfg a name st).
Proof.
  intros H. unfold check_precision. destruct (has_real_class cfg a);
    [exact I | exact H].
Qed.

Lemma raises_within_get_plhs msgs slot st :
  raises_within msgs
    (COMPUTE_NORMAL_VELOCITY_TERM_FOR_LSE_RHS_3D.get_plhs_data slot st).
Proof.
  unfold raises_within, COMPUTE_NORMAL_VELOCITY_TERM_FOR_LSE_RHS_3D.get_plhs_data.
  destruct (st_plhs st !! slot); exact I.
Qed.

Lemma raises_within_set_plhs msgs slot data st :
  raises_within msgs
    (COMPUTE_NORMAL_VELOCITY_TERM_FOR_LSE_RHS_3D.set_plhs_data slot data st).
Proof.
  unfold raises_within, COMPUTE_NORMAL_VELOCITY_TERM_FOR_LSE_RHS_3D.set_plhs_data.
  destruct (st_plhs st !! slot); exact I.
Qed.

Ltac known_message :=
  unfold COMPUTE_NORMAL_VELOCITY_TERM_FOR_LSE_RHS_3D.error_messages;
  rewrite ?elem_of_cons;
  repeat first [left; reflexivity | right].

Ltac raises_step :=
  lazymatch goal with
  | |- raises_within _ (bind _ _ _) =>
      apply raises_within_bind; [|intros ? ? _]
  | |- raises_within _ ((if ?c then _ else _) _) => destruct c
  | |- raises_within _ (mexErrMsgTxt _ _) =>
      apply raises_within_err; known_message
  | |- raises_within _ (check_precision _ _ _ _) =>
      apply raises_within_check; known_message
  | |- raises_within _ (eval _ _) => apply raises_within_eval
  | |- raises_within _ ((let (_, _) := ?p in _) _) => destruct p
  | |- raises_within _ (mxCreateNumericArray _ _ _ _) => exact I
  | |- raises_within _ (call_kernel _ _) => exact I
  | |- raises_within _
         (COMPUTE_NORMAL_VELOCITY_TERM_FOR_LSE_RHS_3D.get_plhs_data _ _) =>
      apply raises_within_get_plhs
  | |- raises_within _
         (COMPUTE_NORMAL_VELOCITY_TERM_FOR_LSE_RHS_3D.set_plhs_data _ _ _) =>
      apply raises_within_set_plhs
  end.

Lemma normal_velocity_errors cfg nlhs prhs st :
  raises_within (COMPUTE_NORMAL_VELOCITY_TERM_FOR_LSE_RHS_3D.error_messages cfg)
    (COMPUTE_NORMAL_VELOCITY_TERM_FOR_LSE_RHS_3D.mexFunction cfg nlhs prhs st).
Proof.
  unfold COMPUTE_NORMAL_VELOCITY_TERM_FOR_LSE_RHS_3D.mexFunction.
  destruct prhs as [|PHI [|GW [|VEL [|XP [|YP [|ZP [|XM [|YM [|ZM [|]]]]]]]]]].
  all: repeat raises_step.
Qed.

(** ** Centering of the smaller ghost box *)

Lemma center_ghostbox_shifted v n lo hi :
  COMPUTE_NORMAL_VELOCITY_TERM_FOR_LSE_RHS_3D.center_ghostbox 1 v n = Some (lo, hi) ->
  (lo, hi) = shifted v n.
Proof.
  unfold COMPUTE_NORMAL_VELOCITY_TERM_FOR_LSE_RHS_3D.center_ghostbox, shifted.
  destruct (v =? n) eqn:E; simpl.
  - apply Z.eqb_eq in E. subst n. intros H. simplify_eq.
    rewrite Z.sub_diag. change (0 ÷ 2) with 0. f_equal; lia.
  - unfold int_sub, int_div, int_add. simpl. intros H.
    destruct (int_checked (n - v)) as [d|] eqn:Hd; [|discriminate].
    apply int_checked_Some in Hd as [-> _]. simpl in H.
    destruct (int_checked ((n - v) ÷ 2)) as [s|] eqn:Hs; [|discriminate].
    apply int_checked_Some in Hs as [-> _]. simpl in H.
    destruct (int_checked (1 + (n - v) ÷ 2)) as [l|] eqn:Hl; [|discriminate].
    apply int_checked_Some in Hl as [-> _]. simpl in H.
    destruct (int_checked (v + (n - v) ÷ 2)) as [h|] eqn:Hh; [|discriminate].
    apply int_checked_Some in Hh as [-> _]. simpl in H.
    by simplify_eq.
Qed.

Lemma centered_box_shifted dims n0 n1 n2 b :
  COMPUTE_NORMAL_VELOCITY_TERM_FOR_LSE_RHS_3D.centered_box dims (Box 1 n0 1 n1 1 n2)
    = Some b ->
  b = shifted_box dims n0 n1 n2.
Proof.
  unfold COMPUTE_NORMAL_VELOCITY_TERM_FOR_LSE_RHS_3D.centered_box, shifted_box.
  destruct dims as [[v0 v1] v2]. simpl. intros H.
  destruct (COMPUTE_NORMAL_VELOCITY_TERM_FOR_LSE_RHS_3D.center_ghostbox 1 v0 n0)
    as [[il ih]|] eqn:H0; [|discriminate].
  destruct (COMPUTE_NORMAL_VELOCITY_TERM_FOR_LSE_RHS_3D.center_ghostbox 1 v1 n1)
    as [[jl jh]|] eqn:H1; [|discriminate].
  destruct (COMPUTE_NORMAL_VELOCITY_TERM_FOR_LSE_RHS_3D.center_ghostbox 1 v2 n2)
    as [[kl kh]|] eqn:H2; [|discriminate].
  simpl in H. simplify_eq.
  apply center_ghostbox_shifted in H0, H1, H2.
  unfold shifted in H0, H1, H2. by simplify_eq.
Qed.

Lemma shifted_margins v n :
  0 <= v <= n ->
  1 <= fst (shifted v n)
  /\ snd (shifted v n) <= n
  /\ (Z.even (n - v) = true -> fst (shifted v n) - 1 = n - snd (shifted v n))
  /\ (Z.odd (n - v) = true -> n - snd (shifted v n) = fst (shifted v n) - 1 + 1).
Proof.
  intros Hv. unfold shifted. simpl.
  rewrite Z.quot_div_nonneg by lia.
  pose proof (Z.div_mod (n - v) 2 ltac:(lia)) as Hdm.
  pose proof (Z.mod_pos_bound (n - v) 2 ltac:(lia)) as Hm.
  repeat split; try lia.
  - intros He. apply Z.even_spec in He as [m Hm']. lia.
  - intros Ho. apply Z.odd_spec in Ho as [m Hm']. lia.
Qed.

(** * Main results *)




(** C2, as amended: a call of the derivative or of the RHS operation in
    which one of the field arrays ([phi] for the derivative; [phi],
    [normal_velocity] and the six gradient arrays for the RHS) does not
    have the configured precision raises an error and leaves the state as
    it was: nothing has been allocated, created or computed.  The class of
    [ghostcell_width] and of [dX] is not checked by either wrapper; these
    two are not among the arrays of this theorem. *)
Theorem precision_mismatch_rejected cfg nlhs prhs i a :
  prhs !! i = Some a ->
  has_real_class cfg a = false ->
  (i ∈ HJ_ENO3_3D.real_arguments ->
   forall st, exists msg,
     HJ_ENO3_3D.mexFunction cfg nlhs prhs st = (Raised msg, st))
  /\
  (i ∈ COMPUTE_NORMAL_VELOCITY_TERM_FOR_LSE_RHS_3D.real_arguments ->
   forall st, exists msg,
     COMPUTE_NORMAL_VELOCITY_TERM_FOR_LSE_RHS_3D.mexFunction cfg nlhs prhs st
     = (Raised msg, st)).
Proof.
  intros Ha Hm. split; intros Hi st.
  - unfold HJ_ENO3_3D.real_arguments in Hi.
    apply list_elem_of_singleton in Hi as ->.
    by apply (HJ_precision_mismatch cfg nlhs prhs a st).
  - by apply (NV_precision_mismatch cfg nlhs prhs i a st).
Qed.

Lemma precision_mismatch_rejected_witness :
  (exists msg,
     HJ_ENO3_3D.mexFunction DoublePrecision 6
       [constant_array mxSINGLE_CLASS [5; 5; 5] zero; scalar (dbl 1 0); sample_dX]
       (initial_state [true; true; true])
     = (Raised msg, initial_state [true; true; true]))
  /\
  (exists msg,
     COMPUTE_NORMAL_VELOCITY_TERM_FOR_LSE_RHS_3D.mexFunction DoublePrecision 1
       (<[6%nat := constant_array mxSINGLE_CLASS [3; 3; 3] zero]> (rhs_sample [3; 3; 3]))
       (initial_state [])
     = (Raised msg, initial_state [])).
Proof.
  split.
  - destruct (precision_mismatch_rejected DoublePrecision 6
                [constant_array mxSINGLE_CLASS [5; 5; 5] zero; scalar (dbl 1 0);
                 sample_dX]
                0%nat (constant_array mxSINGLE_CLASS [5; 5; 5] zero))
      as [Hd _]; [reflexivity | reflexivity |].
    apply Hd. apply list_elem_of_singleton. reflexivity.
  - destruct (precision_mismatch_rejected DoublePrecision 1
                (<[6%nat := constant_array mxSINGLE_CLASS [3; 3; 3] zero]>
                   (rhs_sample [3; 3; 3]))
                6%nat (constant_array mxSINGLE_CLASS [3; 3; 3] zero))
      as [_ Hr]; [reflexivity | reflexivity |].
    apply Hr.
    unfold COMPUTE_NORMAL_VELOCITY_TERM_FOR_LSE_RHS_3D.real_arguments.
    rewrite !elem_of_cons. do 5 right. left. reflexivity.
Defined.

(** C2 as stated fails for [ghostcell_width]: in the double-precision
    build a single-precision [ghostcell_width] is not rejected.  Both
    wrappers read its storage as a double: the floats [0 2.25] are taken
    for the width 4, the derivative wrapper creates its six outputs and
    calls the kernel with the fill box [5 .. 5] of a 9x9x9 [phi], and both
    wrappers return. *)
Lemma single_ghostcell_width_is_reinterpreted :
  has_real_class DoublePrecision single_width = false
  /\ mxGetPr_double single_width 0 = Some (dbl 4 0)
  /\ fst (HJ_ENO3_3D.mexFunction DoublePrecision 6
            [ones [9; 9; 9]; single_width; sample_dX]
            (initial_state [true; true; true])) = Returned tt
  /\ size (st_plhs (snd (HJ_ENO3_3D.mexFunction DoublePrecision 6
                           [ones [9; 9; 9]; single_width; sample_dX]
                           (initial_state [true; true; true])))) = 6%nat
  /\ HJ_ENO3_3D.fb <$>
       head (st_calls (snd (HJ_ENO3_3D.mexFunction DoublePrecision 6
                              [ones [9; 9; 9]; single_width; sample_dX]
                              (initial_state [true; true; true]))))
     = Some (Box 5 5 5 5 5 5)
  /\ fst (COMPUTE_NORMAL_VELOCITY_TERM_FOR_LSE_RHS_3D.mexFunction DoublePrecision 1
            (<[1%nat := single_width]> (rhs_sample [3; 3; 3]))
            (initial_state [])) = Returned tt.
Proof. vm_compute. repeat split; reflexivity. Qed.

(** C8: when the allocation of any of the scratch arrays D1, D2, D3 of
    HJ_ENO3_3D fails, the call frees the scratch arrays it did obtain and
    raises an error; no output array has been created and the derivative
    kernel has not been called. *)
Theorem scratch_allocation_failure_raises cfg nlhs PHI GW DX n0 n1 n2 w d0 d1 d2
      (st : mex_state HJ_ENO3_3D.LSM3D_HJ_ENO3_args) :
  eno3_inputs_ok cfg nlhs PHI GW DX n0 n1 n2 w d0 d1 d2 ->
  state_ok st ->
  take 3 (st_oracle st) ≠ [true; true; true] ->
  exists st',
    HJ_ENO3_3D.mexFunction cfg nlhs [PHI; GW; DX] st
      = (Raised "Unable to allocate memory for scratch data...aborting....", st')
    /\ st_plhs st' = st_plhs st
    /\ st_calls st' = st_calls st
    /\ st_live st' = st_live st.
Proof.
  intros Hok Hst Hor. HJ_validate Hok.
  unfold state_ok in Hst.
  destruct (st_oracle st) as [|[] [|[] [|[] rest]]] eqn:E;
    try (exfalso; apply Hor; reflexivity);
    unfold mxMalloc; simpl; repeat (rewrite E; simpl);
    (eexists; split; [reflexivity|]; simpl; repeat split;
     repeat (rewrite filter_cons_False by (simpl; lia));
     repeat (rewrite filter_cons_True by (simpl; lia));
     repeat (rewrite filter_cons_False by (simpl; lia));
     repeat (rewrite (filter_other_blocks (st_live st) (st_next st)) by (assumption || lia));
     reflexivity).
Qed.


(** C3: after a returning call of the normal-velocity RHS operation,
    [lse_rhs] has the dimensions of [phi] and every cell of the ghost box
    that lies outside the fill box (the ghost box shrunk by
    [ghostcell_width] on each side of each axis) holds exactly zero: the
    wrapper zeroes the array and the kernel writes only inside the fill
    box. *)
Theorem lse_rhs_zero_outside_fillbox cfg nlhs PHI GW VEL XP YP ZP XM YM ZM
        (st st' : mex_state
           COMPUTE_NORMAL_VELOCITY_TERM_FOR_LSE_RHS_3D.LSM3D_ADD_NORMAL_VEL_TERM_TO_LSE_RHS_args) :
  mx_wf PHI ->
  COMPUTE_NORMAL_VELOCITY_TERM_FOR_LSE_RHS_3D.mexFunction cfg nlhs
    [PHI; GW; VEL; XP; YP; ZP; XM; YM; ZM] st = (Returned tt, st') ->
  exists lse_rhs n0 n1 n2 w fbx,
    st_plhs st' !! COMPUTE_NORMAL_VELOCITY_TERM_FOR_LSE_RHS_3D.LSE_RHS = Some lse_rhs
    /\ mx_dims lse_rhs = mx_dims PHI
    /\ mx_dims PHI = [n0; n1; n2]
    /\ mxGetPr_double GW 0 ≫= double_to_int = Some w
    /\ fillbox (Box 1 n0 1 n1 1 n2) w = Some fbx
    /\ forall i j k,
         in_box (Box 1 n0 1 n1 1 n2) i j k -> ~ in_box fbx i j k ->
         load (mx_data lse_rhs) (Box 1 n0 1 n1 1 n2) i j k = Some zero.
Proof.
  intros Hwf Hrun.
  apply NV_returned_inv in Hrun
    as (PHI' & GW' & VEL' & XP' & YP' & ZP' & XM' & YM' & ZM' & n0 & n1 & n2
        & vd & gd & vgb & ggb & w & fbx & after
        & Hprhs & Hdims & _ & _ & _ & _ & Hw & Hfb & Hker & Hplhs & _).
  simplify_eq.
  exists (MxArray (real_class cfg) (normalize_dims [n0; n1; n2]) after),
         n0, n1, n2, w, fbx.
  split; [rewrite Hplhs; apply lookup_insert_eq|].
  split; [simpl; rewrite Hdims; by apply (normalize_dims_three _ _ _ PHI')|].
  repeat (split; [assumption|]).
  intros i j k Hgb Hout. simpl.
  apply normal_vel_kernel_frame in Hker as [Hlen Hframe].
  pose proof (offset_bounds _ _ _ _ Hgb) as Hb. simpl in Hb.
  unfold load.
  destruct (offset (Box 1 n0 1 n1 1 n2) i j k <? 0) eqn:Hneg;
    [apply Z.ltb_lt in Hneg; lia|].
  rewrite Hframe.
  - apply lookup_replicate_2. unfold num_elements. simpl.
    replace (n0 * (n1 * (n2 * 1))) with (n0 * (n1 * n2)) by lia.
    replace (n0 - 1 + 1) with n0 in Hb by lia.
    replace (n1 - 1 + 1) with n1 in Hb by lia.
    replace (n2 - 1 + 1) with n2 in Hb by lia.
    lia.
  - intros i' j' k' Hin. rewrite Z2Nat.id by lia.
    by apply (outside_fillbox_not_hit n0 n1 n2 w fbx i j k i' j' k').
Qed.

Lemma lse_rhs_zero_outside_fillbox_witness :
  exists lse_rhs n0 n1 n2 w fbx,
    st_plhs (snd (COMPUTE_NORMAL_VELOCITY_TERM_FOR_LSE_RHS_3D.mexFunction
                    DoublePrecision 1 (rhs_sample [3; 3; 3]) (initial_state [])))
      !! COMPUTE_NORMAL_VELOCITY_TERM_FOR_LSE_RHS_3D.LSE_RHS = Some lse_rhs
    /\ mx_dims lse_rhs = mx_dims (ones [3; 3; 3])
    /\ mx_dims (ones [3; 3; 3]) = [n0; n1; n2]
    /\ mxGetPr_double (scalar (dbl 1 0)) 0 ≫= double_to_int = Some w
    /\ fillbox (Box 1 n0 1 n1 1 n2) w = Some fbx
    /\ forall i j k,
         in_box (Box 1 n0 1 n1 1 n2) i j k -> ~ in_box fbx i j k ->
         load (mx_data lse_rhs) (Box 1 n0 1 n1 1 n2) i j k = Some zero.
Proof.
  apply (lse_rhs_zero_outside_fillbox DoublePrecision 1
           (ones [3; 3; 3]) (scalar (dbl 1 0)) (ones [3; 3; 3])
           (ones [3; 3; 3]) (ones [3; 3; 3]) (ones [3; 3; 3])
           (ones [3; 3; 3]) (ones [3; 3; 3]) (ones [3; 3; 3])
           (initial_state [])).
  - repeat split; [repeat constructor; unfold INT_MAX; lia ..].
  - vm_compute. reflexivity.
Defined.

(** C4 (amended): the normal-velocity RHS operation compares no array
    extents.  The dimensions of [phi_y_plus], [phi_z_plus] and of the three
    minus arrays are never read, so a call behaves the same whatever they
    are; and the only errors the operation raises are those of the
    argument-count checks, of the eight precision checks and of the check
    that [phi] has three dimensions. *)
Theorem gradient_extents_not_compared cfg nlhs PHI GW VEL XP YP ZP XM YM ZM
        dY dZ dXm dYm dZm
        (st : mex_state
           COMPUTE_NORMAL_VELOCITY_TERM_FOR_LSE_RHS_3D.LSM3D_ADD_NORMAL_VEL_TERM_TO_LSE_RHS_args) :
  COMPUTE_NORMAL_VELOCITY_TERM_FOR_LSE_RHS_3D.mexFunction cfg nlhs
    [PHI; GW; VEL; XP; with_dims YP dY; with_dims ZP dZ;
     with_dims XM dXm; with_dims YM dYm; with_dims ZM dZm] st
  = COMPUTE_NORMAL_VELOCITY_TERM_FOR_LSE_RHS_3D.mexFunction cfg nlhs
      [PHI; GW; VEL; XP; YP; ZP; XM; YM; ZM] st
  /\ raises_within
       (COMPUTE_NORMAL_VELOCITY_TERM_FOR_LSE_RHS_3D.error_messages cfg)
       (COMPUTE_NORMAL_VELOCITY_TERM_FOR_LSE_RHS_3D.mexFunction cfg nlhs
          [PHI; GW; VEL; XP; YP; ZP; XM; YM; ZM] st).
Proof.
  split; [reflexivity | apply normal_velocity_errors].
Qed.

(** C4 as stated fails: with a 4x3x3 [phi_x_minus] next to 3x3x3 plus
    arrays the call raises no error; it returns, having called the kernel
    with the box of the plus arrays for the minus arrays. *)
Lemma mismatched_gradient_extents_accepted :
  mx_dims (ones [4; 3; 3]) ≠ mx_dims (ones [3; 3; 3])
  /\ fst (COMPUTE_NORMAL_VELOCITY_TERM_FOR_LSE_RHS_3D.mexFunction
            DoublePrecision 1 (rhs_sample [4; 3; 3]) (initial_state []))
     = Returned tt
  /\ COMPUTE_NORMAL_VELOCITY_TERM_FOR_LSE_RHS_3D.grad_phi_minus_gb
       <$> head (st_calls (snd (COMPUTE_NORMAL_VELOCITY_TERM_FOR_LSE_RHS_3D.mexFunction
                                  DoublePrecision 1 (rhs_sample [4; 3; 3])
                                  (initial_state []))))
     = Some (Box 1 3 1 3 1 3).
Proof.
  split; [discriminate|]. vm_compute. split; reflexivity.
Qed.

(** C5 (amended): when the extent of the velocity (or gradient) array
    differs from that of [phi], the bounds passed to the kernel for it are
    [1 .. v] moved by [(n - v) / 2], the quotient truncated as in C.  For a
    smaller array the shifted box lies within [phi]'s ghost box; it is
    centred there when the difference of the extents is even, and has one
    more cell of margin on the high side when the difference is odd. *)
Theorem ghostbox_shifted_by_half_difference cfg nlhs PHI GW VEL XP YP ZP XM YM ZM
        (st st' : mex_state
           COMPUTE_NORMAL_VELOCITY_TERM_FOR_LSE_RHS_3D.LSM3D_ADD_NORMAL_VEL_TERM_TO_LSE_RHS_args) :
  COMPUTE_NORMAL_VELOCITY_TERM_FOR_LSE_RHS_3D.mexFunction cfg nlhs
    [PHI; GW; VEL; XP; YP; ZP; XM; YM; ZM] st = (Returned tt, st') ->
  exists args n0 n1 n2 vel_dims grad_dims,
    st_calls st' = args :: st_calls st
    /\ mx_dims PHI = [n0; n1; n2]
    /\ dims3 VEL = Some vel_dims
    /\ dims3 XP = Some grad_dims
    /\ COMPUTE_NORMAL_VELOCITY_TERM_FOR_LSE_RHS_3D.vel_gb args
       = shifted_box vel_dims n0 n1 n2
    /\ COMPUTE_NORMAL_VELOCITY_TERM_FOR_LSE_RHS_3D.grad_phi_plus_gb args
       = shifted_box grad_dims n0 n1 n2
    /\ COMPUTE_NORMAL_VELOCITY_TERM_FOR_LSE_RHS_3D.grad_phi_minus_gb args
       = shifted_box grad_dims n0 n1 n2
    /\ forall v n,
         0 <= v <= n ->
         1 <= fst (shifted v n)
         /\ snd (shifted v n) <= n
         /\ (Z.even (n - v) = true ->
             fst (shifted v n) - 1 = n - snd (shifted v n))
         /\ (Z.odd (n - v) = true ->
             n - snd (shifted v n) = fst (shifted v n) - 1 + 1).
Proof.
  intros Hrun.
  apply NV_returned_inv in Hrun
    as (PHI' & GW' & VEL' & XP' & YP' & ZP' & XM' & YM' & ZM' & n0 & n1 & n2
        & vd & gd & vgb & ggb & w & fbx & after
        & Hprhs & Hdims & Hvd & Hvgb & Hgd & Hggb & _ & _ & _ & _ & Hcalls).
  simplify_eq.
  apply centered_box_shifted in Hvgb, Hggb. subst vgb ggb.
  eexists _, n0, n1, n2, vd, gd.
  split; [exact Hcalls|]. simpl.
  repeat (split; [first [assumption | reflexivity]|]).
  apply shifted_margins.
Qed.

Lemma ghostbox_shifted_by_half_difference_witness :
  exists args n0 n1 n2 vel_dims grad_dims,
    st_calls (snd (COMPUTE_NORMAL_VELOCITY_TERM_FOR_LSE_RHS_3D.mexFunction
                     DoublePrecision 1 rhs_small_velocity (initial_state [])))
      = args :: st_calls (initial_state [])
    /\ mx_dims (ones [6; 5; 5]) = [n0; n1; n2]
    /\ dims3 (ones [3; 3; 3]) = Some vel_dims
    /\ dims3 (ones [6; 5; 5]) = Some grad_dims
    /\ COMPUTE_NORMAL_VELOCITY_TERM_FOR_LSE_RHS_3D.vel_gb args
       = shifted_box vel_dims n0 n1 n2
    /\ COMPUTE_NORMAL_VELOCITY_TERM_FOR_LSE_RHS_3D.grad_phi_plus_gb args
       = shifted_box grad_dims n0 n1 n2
    /\ COMPUTE_NORMAL_VELOCITY_TERM_FOR_LSE_RHS_3D.grad_phi_minus_gb args
       = shifted_box grad_dims n0 n1 n2
    /\ forall v n,
         0 <= v <= n ->
         1 <= fst (shifted v n)
         /\ snd (shifted v n) <= n
         /\ (Z.even (n - v) = true ->
             fst (shifted v n) - 1 = n - snd (shifted v n))
         /\ (Z.odd (n - v) = true ->
             n - snd (shifted v n) = fst (shifted v n) - 1 + 1).
Proof.
  apply (ghostbox_shifted_by_half_difference DoublePrecision 1
           (ones [6; 5; 5]) (scalar (dbl 2 0)) (ones [3; 3; 3])
           (ones [6; 5; 5]) (ones [6; 5; 5]) (ones [6; 5; 5])
           (ones [6; 5; 5]) (ones [6; 5; 5]) (ones [6; 5; 5])
           (initial_state [])).
  vm_compute. reflexivity.
Defined.

(** C5 as stated fails: a velocity array of extent 3 under a [phi] of
    extent 6 is given the bounds [2 .. 4]; one cell of [phi]'s ghost box
    [1 .. 6] lies below them and two lie above, so the smaller box is not
    centred. *)
Lemma odd_difference_is_not_centered :
  fst (COMPUTE_NORMAL_VELOCITY_TERM_FOR_LSE_RHS_3D.mexFunction
         DoublePrecision 1 rhs_small_velocity (initial_state []))
  = Returned tt
  /\ (fun args =>
        (COMPUTE_NORMAL_VELOCITY_TERM_FOR_LSE_RHS_3D.lse_rhs_gb args,
         COMPUTE_NORMAL_VELOCITY_TERM_FOR_LSE_RHS_3D.vel_gb args))
       <$> head (st_calls (snd (COMPUTE_NORMAL_VELOCITY_TERM_FOR_LSE_RHS_3D.mexFunction
                                  DoublePrecision 1 rhs_small_velocity
                                  (initial_state []))))
     = Some (Box 1 6 1 5 1 5, Box 2 4 2 4 2 4)
  /\ 2 - 1 ≠ 6 - 4.
Proof.
  split; [vm_compute; reflexivity|].
  split; [vm_compute; reflexivity | lia].
Qed.

(** C6: a narrow-band routine writes only to the cells addressed by listed
    points whose tag is at most [mark_fb]; every other cell of the output
    keeps its value, so a cell that was zero before the call is zero after
    it. *)
Theorem narrow_band_writes_only_tagged_points term lse_rhs gb
        index_x index_y index_z nlo nhi narrow_band nb_gb mark_fb out :
  narrow_band_loop term lse_rhs gb index_x index_y index_z nlo nhi
                   narrow_band nb_gb mark_fb = Some out ->
  length out = length lse_rhs /\
  forall o : nat,
    (forall l i j k tag,
        nlo <= l <= nhi ->
        index_x !! Z.to_nat (l - nlo) = Some i ->
        index_y !! Z.to_nat (l - nlo) = Some j ->
        index_z !! Z.to_nat (l - nlo) = Some k ->
        load narrow_band nb_gb i j k = Some tag ->
        tag <= mark_fb ->
        offset gb i j k <> Z.of_nat o) ->
    out !! o = lse_rhs !! o
    /\ (lse_rhs !! o = Some zero -> out !! o = Some zero).
Proof.
  intros H. apply narrow_band_loop_frame in H as [Hlen Hframe].
  split; [assumption|]. intros o Ho.
  rewrite (Hframe o Ho). auto.
Qed.

Lemma narrow_band_writes_only_tagged_points_witness :
  exists out,
    LSM3D_ADD_ADVECTION_TERM_TO_LSE_RHS_LOCAL DoublePrecision
      (replicate 27 zero) nb_box
      nb_ones nb_ones nb_ones nb_box
      nb_ones nb_ones nb_ones nb_box
      nb_index nb_index nb_index 0 1
      nb_tags nb_box 1 = Some out
    /\ out !! 13%nat = Some (S754_finite true 6755399441055744 (-51))
    /\ length out = length (replicate 27 zero)
    /\ forall o : nat,
         (forall l i j k tag,
             0 <= l <= 1 ->
             nb_index !! Z.to_nat (l - 0) = Some i ->
             nb_index !! Z.to_nat (l - 0) = Some j ->
             nb_index !! Z.to_nat (l - 0) = Some k ->
             load nb_tags nb_box i j k = Some tag ->
             tag <= 1 ->
             offset nb_box i j k <> Z.of_nat o) ->
         out !! o = replicate 27 zero !! o
         /\ (replicate 27 zero !! o = Some zero -> out !! o = Some zero).
Proof.
  unfold LSM3D_ADD_ADVECTION_TERM_TO_LSE_RHS_LOCAL.
  lazymatch goal with
  | |- exists out, narrow_band_loop ?term _ _ _ _ _ _ _ _ _ _ = Some out /\ _ =>
      eexists; split; [vm_compute; reflexivity|];
      split; [vm_compute; reflexivity|];
      apply (narrow_band_writes_only_tagged_points term);
      vm_compute; reflexivity
  end.
Defined.

Lemma scratch_allocation_failure_raises_witness :
  exists st',
    HJ_ENO3_3D.mexFunction DoublePrecision 6 eno3_sample
      (initial_state [true; false; true])
      = (Raised "Unable to allocate memory for scratch data...aborting....", st')
    /\ st_plhs st' = ∅
    /\ st_calls st' = []
    /\ st_live st' = [].
Proof.
  apply (scratch_allocation_failure_raises DoublePrecision 6 _ _ _ 5 5 5 1
           (dbl 1 (-1)) (dbl 1 (-2)) (dbl 1 (-3))).
  - constructor; try reflexivity; unfold INT_MAX; lia.
  - constructor.
  - discriminate.
Defined.



(** C10: HJ_ENO3_3D hands its inputs to the kernel in MATLAB meshgrid
    order.  The spacing passed for the first array index is [dX[1]], for
    the second [dX[0]], for the third [dX[2]]; the x and y output arrays
    are exchanged in the call; hence the output arrays of each coordinate
    axis are the kernel's derivatives along the array index of that axis,
    taken with the spacing of that axis. *)
Theorem meshgrid_order_in_kernel_call cfg nlhs PHI GW DX
        (st st' : mex_state HJ_ENO3_3D.LSM3D_HJ_ENO3_args) :
  HJ_ENO3_3D.mexFunction cfg nlhs [PHI; GW; DX] st = (Returned tt, st') ->
  exists args,
    st_calls st' = args :: st_calls st
    /\ Some (HJ_ENO3_3D.dx args) = double_to_LSMLIB_REAL cfg <$> mxGetPr_double DX 1
    /\ Some (HJ_ENO3_3D.dy args) = double_to_LSMLIB_REAL cfg <$> mxGetPr_double DX 0
    /\ Some (HJ_ENO3_3D.dz args) = double_to_LSMLIB_REAL cfg <$> mxGetPr_double DX 2
    /\ HJ_ENO3_3D.phi_x_plus args = PlhsData HJ_ENO3_3D.PHI_Y_PLUS
    /\ HJ_ENO3_3D.phi_y_plus args = PlhsData HJ_ENO3_3D.PHI_X_PLUS
    /\ HJ_ENO3_3D.phi_z_plus args = PlhsData HJ_ENO3_3D.PHI_Z_PLUS
    /\ HJ_ENO3_3D.phi_x_minus args = PlhsData HJ_ENO3_3D.PHI_Y_MINUS
    /\ HJ_ENO3_3D.phi_y_minus args = PlhsData HJ_ENO3_3D.PHI_X_MINUS
    /\ HJ_ENO3_3D.phi_z_minus args = PlhsData HJ_ENO3_3D.PHI_Z_MINUS
    /\ forall a : axis,
         kernel_plus args (meshgrid_index a) = PlhsData (plus_slot a)
         /\ kernel_minus args (meshgrid_index a) = PlhsData (minus_slot a)
         /\ Some (kernel_spacing args (meshgrid_index a))
            = double_to_LSMLIB_REAL cfg <$> mxGetPr_double DX (axis_number a).
Proof.
  intros Hrun.
  apply HJ_returned_inv in Hrun
    as (PHI' & GW' & DX' & n0 & n1 & n2 & w & d0 & d1 & d2 & fbx
        & Hprhs & _ & _ & Hd0 & Hd1 & Hd2 & _ & _ & Hcalls).
  simplify_eq.
  eexists. split; [exact Hcalls|]. simpl.
  rewrite Hd0, Hd1, Hd2. simpl.
  repeat (split; [reflexivity|]).
  intros []; simpl; rewrite ?Hd0, ?Hd1, ?Hd2; repeat split; reflexivity.
Qed.

Lemma meshgrid_order_in_kernel_call_witness :
  exists args,
    st_calls (snd (HJ_ENO3_3D.mexFunction DoublePrecision 6 eno3_sample
                     (initial_state [true; true; true])))
      = args :: st_calls (initial_state [true; true; true])
    /\ Some (HJ_ENO3_3D.dx args)
       = double_to_LSMLIB_REAL DoublePrecision <$> mxGetPr_double sample_dX 1
    /\ Some (HJ_ENO3_3D.dy args)
       = double_to_LSMLIB_REAL DoublePrecision <$> mxGetPr_double sample_dX 0
    /\ Some (HJ_ENO3_3D.dz args)
       = double_to_LSMLIB_REAL DoublePrecision <$> mxGetPr_double sample_dX 2
    /\ HJ_ENO3_3D.phi_x_plus args = PlhsData HJ_ENO3_3D.PHI_Y_PLUS
    /\ HJ_ENO3_3D.phi_y_plus args = PlhsData HJ_ENO3_3D.PHI_X_PLUS
    /\ HJ_ENO3_3D.phi_z_plus args = PlhsData HJ_ENO3_3D.PHI_Z_PLUS
    /\ HJ_ENO3_3D.phi_x_minus args = PlhsData HJ_ENO3_3D.PHI_Y_MINUS
    /\ HJ_ENO3_3D.phi_y_minus args = PlhsData HJ_ENO3_3D.PHI_X_MINUS
    /\ HJ_ENO3_3D.phi_z_minus args = PlhsData HJ_ENO3_3D.PHI_Z_MINUS
    /\ forall a : axis,
         kernel_plus args (meshgrid_index a) = PlhsData (plus_slot a)
         /\ kernel_minus args (meshgrid_index a) = PlhsData (minus_slot a)
         /\ Some (kernel_spacing args (meshgrid_index a))
            = double_to_LSMLIB_REAL DoublePrecision
                <$> mxGetPr_double sample_dX (axis_number a).
Proof.
  apply (meshgrid_order_in_kernel_call DoublePrecision 6
           (ones [5; 5; 5]) (scalar (dbl 1 0)) sample_dX
           (initial_state [true; true; true])).
  vm_compute. reflexivity.
Defined.

(** * Further properties of the wrappers *)

(** ** Inversion of a raised error *)

Lemma bind_eval_Raised {K A B} (o : option A) (f : A -> M K B) st msg st' :
  bind (eval o) f st = (Raised msg, st') ->
  exists a, o = Some a /\ f a st = (Raised msg, st').
Proof.
  unfold bind, eval. destruct o; intros H; try discriminate. eauto.
Qed.

Lemma bind_check_Raised {K B} cfg a name (f : unit -> M K B) st msg st' :
  bind (check_precision cfg a name) f st = (Raised msg, st') ->
  (has_real_class cfg a = false /\ msg = precision_message cfg name /\ st' = st)
  \/ (has_real_class cfg a = true /\ f tt st = (Raised msg, st')).
Proof.
  unfold bind, check_precision, ret, mexErrMsgTxt.
  destruct (has_real_class cfg a); intros H; [right; auto|left].
  by simplify_eq.
Qed.

Lemma guard_Raised {K B} (c : bool) m (k : M K B) st msg st' :
  (if c then mexErrMsgTxt m else k) st = (Raised msg, st') ->
  (c = true /\ msg = m /\ st' = st) \/ (c = false /\ k st = (Raised msg, st')).
Proof.
  destruct c; intros H; [left|right; auto].
  unfold mexErrMsgTxt in H. by simplify_eq.
Qed.

Lemma mxMalloc_inv {K} size (st st1 : mex_state K) p :
  mxMalloc size st = (Returned p, st1) ->
  st_plhs st1 = st_plhs st /\ st_calls st1 = st_calls st /\
  ((p = None /\ st_live st1 = st_live st /\ st_next st1 = st_next st)
   \/ (p = Some (st_next st)
       /\ st_live st1 = (st_next st, size) :: st_live st
       /\ st_next st1 = S (st_next st))).
Proof.
  unfold mxMalloc. intros H.
  destruct (st_oracle st) as [|[] rest]; simplify_eq; simpl;
    (split; [reflexivity|split; [reflexivity|]]);
    [left | right | left]; auto.
Qed.

Lemma bind_mxMalloc_inv {K B} size (f : option nat -> M K B) st r :
  bind (mxMalloc size) f st = r ->
  exists p st1, mxMalloc size st = (Returned p, st1) /\ f p st1 = r.
Proof.
  unfold bind. intros H.
  destruct (mxMalloc size st) as [[p| |] st1] eqn:E.
  - eauto.
  - unfold mxMalloc in E. destruct (st_oracle st) as [|[] ?]; discriminate.
  - unfold mxMalloc in E. destruct (st_oracle st) as [|[] ?]; discriminate.
Qed.

Ltac raise_inv H :=
  repeat first
    [ match type of H with
      | (if _ then mexErrMsgTxt _ else _) _ = (Raised _, _) =>
          let Hc := fresh "Hguard" in
          apply guard_Raised in H as [(_ & _ & ->)|[Hc H]]; [done|]
      | bind (check_precision _ _ _) _ _ = (Raised _, _) =>
          let Hc := fresh "Hclass" in
          apply bind_check_Raised in H as [(_ & _ & ->)|[Hc H]]; [done|]
      | bind (eval _) _ _ = (Raised _, _) =>
          let x := fresh "x" in
          let Hx := fresh "Hx" in
          apply bind_eval_Raised in H as (x & Hx & H)
      | bind (mxCreateNumericArray _ _ _) _ _ = _ =>
          apply bind_create_inv in H; reduce_state H
      | bind (call_kernel _) _ _ = _ =>
          apply bind_call_kernel_inv in H; reduce_state H
      | bind (mxFree _) _ _ = _ =>
          apply bind_mxFree_inv in H; reduce_state H
      | bind (mxMalloc _) _ _ = _ =>
          let p := fresh "p" in
          let st1 := fresh "st" in
          let Hp := fresh "Hp" in
          apply bind_mxMalloc_inv in H as (p & st1 & Hp & H)
      | (let (_, _) := ?p in _) _ = _ => destruct p
      end ].

(** X1: whatever error HJ_ENO3_3D raises, it raises it with no output
    array created, no kernel call made and no scratch block left
    allocated. *)
Theorem eno3_error_leaves_nothing_behind cfg nlhs prhs msg
        (st st' : mex_state HJ_ENO3_3D.LSM3D_HJ_ENO3_args) :
  state_ok st ->
  HJ_ENO3_3D.mexFunction cfg nlhs prhs st = (Raised msg, st') ->
  st_plhs st' = st_plhs st
  /\ st_calls st' = st_calls st
  /\ st_live st' = st_live st.
Proof.
  intros Hok H. unfold state_ok in Hok. unfold HJ_ENO3_3D.mexFunction in H.
  destruct prhs as [|PHI [|GW [|DX [|]]]];
    try (unfold mexErrMsgTxt in H; by simplify_eq).
  raise_inv H.
  apply mxMalloc_inv in Hp as (Hpl1 & Hc1 & Hm1).
  apply mxMalloc_inv in Hp0 as (Hpl2 & Hc2 & Hm2).
  apply mxMalloc_inv in Hp1 as (Hpl3 & Hc3 & Hm3).
  destruct Hm1 as [(-> & Hl1 & Hn1)|(-> & Hl1 & Hn1)];
  destruct Hm2 as [(-> & Hl2 & Hn2)|(-> & Hl2 & Hn2)];
  destruct Hm3 as [(-> & Hl3 & Hn3)|(-> & Hl3 & Hn3)];
  cbv iota in H.
  8: { raise_inv H. unfold mxFree in H. discriminate H. }
  all: unfold HJ_ENO3_3D.free_if_allocated, bind, mxFree, ret, mexErrMsgTxt in H;
    simplify_eq; simpl;
    rewrite Hpl3, Hpl2, Hpl1, Hc3, Hc2, Hc1, Hl3, Hl2, Hl1;
    repeat split; try reflexivity;
    rewrite ?Hn2, ?Hn1;
    repeat first
      [ rewrite filter_cons_False by (simpl; lia)
      | rewrite filter_cons_True by (simpl; lia)
      | rewrite (filter_other_blocks (st_live st) (st_next st)) by (assumption || lia) ];
    reflexivity.
Qed.

Lemma eno3_error_leaves_nothing_behind_witness :
  st_plhs (snd (HJ_ENO3_3D.mexFunction DoublePrecision 6 eno3_sample
                  (initial_state [true; true; false]))) = ∅
  /\ st_calls (snd (HJ_ENO3_3D.mexFunction DoublePrecision 6 eno3_sample
                      (initial_state [true; true; false]))) = []
  /\ st_live (snd (HJ_ENO3_3D.mexFunction DoublePrecision 6 eno3_sample
                     (initial_state [true; true; false]))) = [].
Proof.
  apply (eno3_error_leaves_nothing_behind DoublePrecision 6 eno3_sample
           "Unable to allocate memory for scratch data...aborting...."
           (initial_state [true; true; false])).
  - constructor.
  - vm_compute. reflexivity.
Defined.

Lemma bind_get_plhs_inv {B} slot
      (f : list real -> COMPUTE_NORMAL_VELOCITY_TERM_FOR_LSE_RHS_3D.MEX B)
      st msg st' :
  bind (COMPUTE_NORMAL_VELOCITY_TERM_FOR_LSE_RHS_3D.get_plhs_data slot) f st
    = (Raised msg, st') ->
  exists a, st_plhs st !! slot = Some a /\ f (mx_data a) st = (Raised msg, st').
Proof.
  unfold bind, COMPUTE_NORMAL_VELOCITY_TERM_FOR_LSE_RHS_3D.get_plhs_data.
  destruct (st_plhs st !! slot); intros H; try discriminate. eauto.
Qed.

Lemma bind_set_plhs_inv {B} slot data
      (f : unit -> COMPUTE_NORMAL_VELOCITY_TERM_FOR_LSE_RHS_3D.MEX B)
      st msg st' :
  bind (COMPUTE_NORMAL_VELOCITY_TERM_FOR_LSE_RHS_3D.set_plhs_data slot data) f st
    = (Raised msg, st') ->
  exists a, st_plhs st !! slot = Some a /\
    f tt (MexState (<[slot := MxArray (mx_class a) (mx_dims a) data]> (st_plhs st))
                   (st_live st) (st_next st) (st_oracle st) (st_calls st))
    = (Raised msg, st').
Proof.
  unfold bind, COMPUTE_NORMAL_VELOCITY_TERM_FOR_LSE_RHS_3D.set_plhs_data.
  destruct (st_plhs st !! slot); intros H; try discriminate. eauto.
Qed.

Lemma set_plhs_never_raises slot data st msg st' :
  COMPUTE_NORMAL_VELOCITY_TERM_FOR_LSE_RHS_3D.set_plhs_data slot data st
    ≠ (Raised msg, st').
Proof.
  unfold COMPUTE_NORMAL_VELOCITY_TERM_FOR_LSE_RHS_3D.set_plhs_data.
  destruct (st_plhs st !! slot); discriminate.
Qed.

(** X2: every error of the normal-velocity wrapper is raised before
    anything is done: the state after the error is the state before the
    call. *)
Theorem normal_velocity_error_changes_nothing cfg nlhs prhs msg
        (st st' : mex_state
           COMPUTE_NORMAL_VELOCITY_TERM_FOR_LSE_RHS_3D.LSM3D_ADD_NORMAL_VEL_TERM_TO_LSE_RHS_args) :
  COMPUTE_NORMAL_VELOCITY_TERM_FOR_LSE_RHS_3D.mexFunction cfg nlhs prhs st
    = (Raised msg, st') ->
  st' = st.
Proof.
  intros H. unfold COMPUTE_NORMAL_VELOCITY_TERM_FOR_LSE_RHS_3D.mexFunction in H.
  destruct prhs as [|PHI [|GW [|VEL [|XP [|YP [|ZP [|XM [|YM [|ZM [|]]]]]]]]]];
    try (unfold mexErrMsgTxt in H; by simplify_eq).
  raise_inv H.
  exfalso.
  apply bind_get_plhs_inv in H as (a & _ & H).
  raise_inv H.
  apply bind_set_plhs_inv in H as (a' & _ & H). reduce_state H.
  raise_inv H.
  apply bind_get_plhs_inv in H as (a'' & _ & H).
  raise_inv H.
  by apply set_plhs_never_raises in H.
Qed.

Lemma normal_velocity_error_changes_nothing_witness :
  snd (COMPUTE_NORMAL_VELOCITY_TERM_FOR_LSE_RHS_3D.mexFunction DoublePrecision 1
         (<[0%nat := ones [3; 3]]> (rhs_sample [3; 3; 3])) (initial_state []))
  = initial_state [].
Proof.
  apply (normal_velocity_error_changes_nothing DoublePrecision 1
           (<[0%nat := ones [3; 3]]> (rhs_sample [3; 3; 3]))
           "phi should be a 3 dimensional array." (initial_state [])).
  vm_compute. reflexivity.
Defined.

(** X3: a returning call of HJ_ENO3_3D has made exactly three scratch
    allocations, with fresh blocks, and has freed all three: the blocks
    allocated after the call are those allocated before it.  It has made
    one kernel call and has assigned no output slot beyond the sixth. *)
Theorem eno3_return_frees_its_scratch cfg nlhs prhs
        (st st' : mex_state HJ_ENO3_3D.LSM3D_HJ_ENO3_args) :
  state_ok st ->
  HJ_ENO3_3D.mexFunction cfg nlhs prhs st = (Returned tt, st') ->
  st_live st' = st_live st
  /\ st_next st' = S (S (S (st_next st)))
  /\ st_oracle st = true :: true :: true :: st_oracle st'
  /\ (forall slot, (6 <= slot)%nat -> st_plhs st' !! slot = st_plhs st !! slot)
  /\ exists args,
       st_calls st' = args :: st_calls st
       /\ HJ_ENO3_3D.D1 args = Scratch (st_next st)
       /\ HJ_ENO3_3D.D2 args = Scratch (S (st_next st))
       /\ HJ_ENO3_3D.D3 args = Scratch (S (S (st_next st)))
       /\ forall id size, (id, size) ∈ st_live st ->
            Scratch id ∉ [HJ_ENO3_3D.D1 args; HJ_ENO3_3D.D2 args;
                          HJ_ENO3_3D.D3 args].
Proof.
  intros Hok H. unfold state_ok in Hok. unfold HJ_ENO3_3D.mexFunction in H.
  destruct prhs as [|PHI [|GW [|DX [|]]]];
    try (unfold mexErrMsgTxt in H; discriminate H).
  mex_inv H.
  destruct p as [b1|];
    [destruct p0 as [b2|]; [destruct p1 as [b3|]|]|]; cbv iota in H.
  2-4: exfalso; exact (HJ_scratch_failure_raises _ _ _ _ _ _ _ H).
  mex_inv H.
  apply mxFree_inv in H as ->.
  apply mxMalloc_Some in Hp as (r1 & Ho1 & -> & ->).
  apply mxMalloc_Some in Hp0 as (r2 & Ho2 & -> & ->).
  apply mxMalloc_Some in Hp1 as (r3 & Ho3 & -> & ->).
  cbn beta iota delta [st_plhs st_live st_next st_oracle st_calls] in *.
  split.
  { repeat first
      [ rewrite filter_cons_True by (simpl; lia)
      | rewrite filter_cons_False by (simpl; lia)
      | rewrite (filter_other_blocks (st_live st) (st_next st)) by (assumption || lia) ].
    reflexivity. }
  split; [reflexivity|].
  split; [congruence|].
  split.
  { intros slot Hslot.
    unfold HJ_ENO3_3D.PHI_X_PLUS, HJ_ENO3_3D.PHI_Y_PLUS, HJ_ENO3_3D.PHI_Z_PLUS,
      HJ_ENO3_3D.PHI_X_MINUS, HJ_ENO3_3D.PHI_Y_MINUS, HJ_ENO3_3D.PHI_Z_MINUS.
    rewrite !lookup_insert_ne by lia. reflexivity. }
  eexists. split; [reflexivity|]. simpl.
  repeat (split; [reflexivity|]).
  intros id size Hin Hel.
  rewrite Forall_forall in Hok. apply Hok in Hin. simpl in Hin.
  rewrite !elem_of_cons, elem_of_nil in Hel.
  destruct Hel as [Hel|[Hel|[Hel|[]]]]; injection Hel as ->; lia.
Qed.

Lemma eno3_return_frees_its_scratch_witness :
  st_live (snd (HJ_ENO3_3D.mexFunction DoublePrecision 6 eno3_sample
                  (initial_state [true; true; true; false]))) = []
  /\ st_next (snd (HJ_ENO3_3D.mexFunction DoublePrecision 6 eno3_sample
                     (initial_state [true; true; true; false]))) = 3%nat
  /\ [true; true; true; false]
     = true :: true :: true
         :: st_oracle (snd (HJ_ENO3_3D.mexFunction DoublePrecision 6 eno3_sample
                              (initial_state [true; true; true; false]))).
Proof.
  destruct (eno3_return_frees_its_scratch DoublePrecision 6 eno3_sample
              (initial_state [true; true; true; false])
              (snd (HJ_ENO3_3D.mexFunction DoublePrecision 6 eno3_sample
                      (initial_state [true; true; true; false]))))
    as (Hlive & Hnext & Horacle & _).
  - constructor.
  - vm_compute. reflexivity.
  - split; [exact Hlive|]. split; [exact Hnext|]. exact Horacle.
Defined.

(** X4: in the kernel call of a returning HJ_ENO3_3D call the ten data
    buffers are pairwise distinct, the six ghost boxes are all the box
    [1..n0] x [1..n1] x [1..n2] of [phi], and for a ghostcell width that
    is not negative the fill box lies within that box. *)
Theorem eno3_kernel_buffers_distinct cfg nlhs PHI GW DX
        (st st' : mex_state HJ_ENO3_3D.LSM3D_HJ_ENO3_args) :
  HJ_ENO3_3D.mexFunction cfg nlhs [PHI; GW; DX] st = (Returned tt, st') ->
  exists args n0 n1 n2,
    st_calls st' = args :: st_calls st
    /\ mx_dims PHI = [n0; n1; n2]
    /\ NoDup (eno3_buffers args)
    /\ HJ_ENO3_3D.phi_gb args = Box 1 n0 1 n1 1 n2
    /\ HJ_ENO3_3D.grad_phi_plus_gb args = HJ_ENO3_3D.phi_gb args
    /\ HJ_ENO3_3D.grad_phi_minus_gb args = HJ_ENO3_3D.phi_gb args
    /\ HJ_ENO3_3D.D1_gb args = HJ_ENO3_3D.phi_gb args
    /\ HJ_ENO3_3D.D2_gb args = HJ_ENO3_3D.phi_gb args
    /\ HJ_ENO3_3D.D3_gb args = HJ_ENO3_3D.phi_gb args
    /\ forall w, mxGetPr_double GW 0 ≫= double_to_int = Some w -> 0 <= w ->
         box_within (HJ_ENO3_3D.fb args) (HJ_ENO3_3D.phi_gb args).
Proof.
  intros H.
  apply HJ_returned_inv in H
    as (PHI' & GW' & DX' & n0 & n1 & n2 & w & d0 & d1 & d2 & fbx & Hprhs
        & Hdims & Hw & _ & _ & _ & Hfb & _ & Hcalls).
  injection Hprhs as <- <- <-.
  eexists _, n0, n1, n2. split; [exact Hcalls|]. split; [exact Hdims|].
  split.
  { unfold eno3_buffers. simpl.
    unfold HJ_ENO3_3D.PHI_X_PLUS, HJ_ENO3_3D.PHI_Y_PLUS, HJ_ENO3_3D.PHI_Z_PLUS,
      HJ_ENO3_3D.PHI_X_MINUS, HJ_ENO3_3D.PHI_Y_MINUS, HJ_ENO3_3D.PHI_Z_MINUS.
    repeat (apply NoDup_cons; split;
            [rewrite ?elem_of_cons, elem_of_nil;
             intros Hel; repeat destruct Hel as [Hel|Hel];
             first [discriminate Hel | injection Hel; lia | exact Hel]|]).
    apply NoDup_nil_2. }
  simpl. repeat (split; [reflexivity|]).
  intros w' Hw' Hpos. rewrite Hw in Hw'. injection Hw' as <-.
  apply fillbox_Some in Hfb as ->. unfold box_within. simpl. lia.
Qed.

Lemma eno3_kernel_buffers_distinct_witness :
  exists args,
    st_calls (snd (HJ_ENO3_3D.mexFunction DoublePrecision 6 eno3_sample
                     (initial_state [true; true; true])))
      = [args]
    /\ NoDup (eno3_buffers args)
    /\ box_within (HJ_ENO3_3D.fb args) (HJ_ENO3_3D.phi_gb args).
Proof.
  destruct (eno3_kernel_buffers_distinct DoublePrecision 6
              (ones [5; 5; 5]) (scalar (dbl 1 0)) sample_dX
              (initial_state [true; true; true])
              (snd (HJ_ENO3_3D.mexFunction DoublePrecision 6 eno3_sample
                      (initial_state [true; true; true]))))
    as (args & n0 & n1 & n2 & Hcalls & _ & Hnodup & _ & _ & _ & _ & _ & _ & Hfb).
  - vm_compute. reflexivity.
  - exists args. split; [exact Hcalls|]. split; [exact Hnodup|].
    apply (Hfb 1); [vm_compute; reflexivity | lia].
Defined.

(** ** Centering of the ghost boxes *)

Lemma center_ghostbox_keeps_extent lo hi hi_phi lo' hi' :
  COMPUTE_NORMAL_VELOCITY_TERM_FOR_LSE_RHS_3D.center_ghostbox lo hi hi_phi
    = Some (lo', hi') ->
  hi' - lo' = hi - lo
  /\ (hi = hi_phi -> lo' = lo /\ hi' = hi)
  /\ hi' - hi = (hi_phi - hi) ÷ 2.
Proof.
  unfold COMPUTE_NORMAL_VELOCITY_TERM_FOR_LSE_RHS_3D.center_ghostbox.
  destruct (hi =? hi_phi) eqn:E; simpl.
  - apply Z.eqb_eq in E. subst hi_phi. intros H. simplify_eq.
    rewrite Z.sub_diag. change (0 ÷ 2) with 0. lia.
  - apply Z.eqb_neq in E.
    unfold int_sub, int_div, int_add. intros H.
    destruct (int_checked (hi_phi - hi)) as [d|] eqn:Hd; [|discriminate].
    apply int_checked_Some in Hd as [-> _]. simpl in H.
    destruct (2 =? 0) eqn:E2; [discriminate|]. simpl in H.
    destruct (int_checked ((hi_phi - hi) ÷ 2)) as [s|] eqn:Hs; [|discriminate].
    apply int_checked_Some in Hs as [-> _]. simpl in H.
    destruct (int_checked (lo + (hi_phi - hi) ÷ 2)) as [l|] eqn:Hl; [|discriminate].
    apply int_checked_Some in Hl as [-> _]. simpl in H.
    destruct (int_checked (hi + (hi_phi - hi) ÷ 2)) as [h|] eqn:Hh; [|discriminate].
    apply int_checked_Some in Hh as [-> _]. simpl in H.
    simplify_eq. lia.
Qed.

(** X5: centering a ghost box on the box of [phi] moves it without
    resizing it: along each axis the centred box has as many cells as the
    array it describes, whatever the box of [phi] is, and an axis on which
    the array is as long as [phi] is not moved at all. *)
Theorem centered_box_keeps_extents v0 v1 v2 phi_gb b :
  COMPUTE_NORMAL_VELOCITY_TERM_FOR_LSE_RHS_3D.centered_box (v0, v1, v2) phi_gb
    = Some b ->
  box_extents b = (v0, v1, v2)
  /\ (v0 = ihi phi_gb -> ilo b = 1 /\ ihi b = v0)
  /\ (v1 = jhi phi_gb -> jlo b = 1 /\ jhi b = v1)
  /\ (v2 = khi phi_gb -> klo b = 1 /\ khi b = v2).
Proof.
  unfold COMPUTE_NORMAL_VELOCITY_TERM_FOR_LSE_RHS_3D.centered_box. intros H.
  destruct (COMPUTE_NORMAL_VELOCITY_TERM_FOR_LSE_RHS_3D.center_ghostbox 1 v0 (ihi phi_gb))
    as [[il ih]|] eqn:H0; [|discriminate].
  destruct (COMPUTE_NORMAL_VELOCITY_TERM_FOR_LSE_RHS_3D.center_ghostbox 1 v1 (jhi phi_gb))
    as [[jl jh]|] eqn:H1; [|discriminate].
  destruct (COMPUTE_NORMAL_VELOCITY_TERM_FOR_LSE_RHS_3D.center_ghostbox 1 v2 (khi phi_gb))
    as [[kl kh]|] eqn:H2; [|discriminate].
  simpl in H. injection H as <-.
  apply center_ghostbox_keeps_extent in H0 as (E0 & F0 & _).
  apply center_ghostbox_keeps_extent in H1 as (E1 & F1 & _).
  apply center_ghostbox_keeps_extent in H2 as (E2 & F2 & _).
  unfold box_extents. simpl.
  split; [f_equal; [f_equal|]; lia|].
  split; [exact F0|]. split; [exact F1|exact F2].
Qed.

Lemma centered_box_keeps_extents_witness :
  box_extents (Box 2 4 2 4 1 5) = (3, 3, 5)
  /\ (3 = ihi (Box 1 6 1 5 1 5) -> ilo (Box 2 4 2 4 1 5) = 1 /\ ihi (Box 2 4 2 4 1 5) = 3)
  /\ (3 = jhi (Box 1 6 1 5 1 5) -> jlo (Box 2 4 2 4 1 5) = 1 /\ jhi (Box 2 4 2 4 1 5) = 3)
  /\ (5 = khi (Box 1 6 1 5 1 5) -> klo (Box 2 4 2 4 1 5) = 1 /\ khi (Box 2 4 2 4 1 5) = 5).
Proof.
  apply (centered_box_keeps_extents 3 3 5 (Box 1 6 1 5 1 5) (Box 2 4 2 4 1 5)).
  vm_compute. reflexivity.
Defined.

Lemma fill_within_shifted v n w :
  0 <= w -> n - v <= 2 * w ->
  fst (shifted v n) <= 1 + w /\ n - w <= snd (shifted v n).
Proof.
  intros Hw Hd. unfold shifted. simpl.
  destruct (Z.le_gt_cases 0 (n - v)) as [Hpos|Hneg].
  - rewrite Z.quot_div_nonneg by lia.
    pose proof (Z.div_mod (n - v) 2 ltac:(lia)) as Hdm.
    pose proof (Z.mod_pos_bound (n - v) 2 ltac:(lia)) as Hm.
    lia.
  - pose proof (Z.quot_opp_l (n - v) 2 ltac:(lia)) as Hq.
    assert (Hnn : 0 <= - (n - v)) by lia.
    rewrite Z.quot_div_nonneg in Hq by lia.
    pose proof (Z.div_mod (- (n - v)) 2 ltac:(lia)) as Hdm.
    pose proof (Z.mod_pos_bound (- (n - v)) 2 ltac:(lia)) as Hm.
    lia.
Qed.

(** X6: in the kernel call of a returning call of the normal-velocity
    wrapper with a ghostcell width [w >= 0], the fill box lies within the
    box of [lse_rhs]; it lies within the centred box of the velocity when
    the velocity is on no axis more than [2 w] cells shorter than [phi],
    and likewise within the box of the gradients, which is one box for the
    plus and the minus derivatives. *)
Theorem fill_box_within_centered_boxes cfg nlhs PHI GW VEL XP YP ZP XM YM ZM
        n0 n1 n2 v0 v1 v2 g0 g1 g2 w
        (st st' : mex_state
           COMPUTE_NORMAL_VELOCITY_TERM_FOR_LSE_RHS_3D.LSM3D_ADD_NORMAL_VEL_TERM_TO_LSE_RHS_args) :
  COMPUTE_NORMAL_VELOCITY_TERM_FOR_LSE_RHS_3D.mexFunction cfg nlhs
    [PHI; GW; VEL; XP; YP; ZP; XM; YM; ZM] st = (Returned tt, st') ->
  mx_dims PHI = [n0; n1; n2] ->
  dims3 VEL = Some (v0, v1, v2) ->
  dims3 XP = Some (g0, g1, g2) ->
  mxGetPr_double GW 0 ≫= double_to_int = Some w ->
  0 <= w ->
  exists args,
    st_calls st' = args :: st_calls st
    /\ box_within (COMPUTE_NORMAL_VELOCITY_TERM_FOR_LSE_RHS_3D.fb args)
                  (COMPUTE_NORMAL_VELOCITY_TERM_FOR_LSE_RHS_3D.lse_rhs_gb args)
    /\ (n0 - v0 <= 2 * w -> n1 - v1 <= 2 * w -> n2 - v2 <= 2 * w ->
        box_within (COMPUTE_NORMAL_VELOCITY_TERM_FOR_LSE_RHS_3D.fb args)
                   (COMPUTE_NORMAL_VELOCITY_TERM_FOR_LSE_RHS_3D.vel_gb args))
    /\ (n0 - g0 <= 2 * w -> n1 - g1 <= 2 * w -> n2 - g2 <= 2 * w ->
        box_within (COMPUTE_NORMAL_VELOCITY_TERM_FOR_LSE_RHS_3D.fb args)
                   (COMPUTE_NORMAL_VELOCITY_TERM_FOR_LSE_RHS_3D.grad_phi_plus_gb args))
    /\ COMPUTE_NORMAL_VELOCITY_TERM_FOR_LSE_RHS_3D.grad_phi_minus_gb args
       = COMPUTE_NORMAL_VELOCITY_TERM_FOR_LSE_RHS_3D.grad_phi_plus_gb args.
Proof.
  intros H Hdims Hvel Hgrad Hw Hpos.
  apply NV_returned_inv in H
    as (PHI' & GW' & VEL' & XP' & YP' & ZP' & XM' & YM' & ZM' & m0 & m1 & m2
        & vd & gd & vgb & ggb & w' & fbx & after & Hprhs & Hdims' & Hvd & Hvgb
        & Hgd & Hggb & Hw' & Hfb & _ & _ & Hcalls).
  injection Hprhs as <- <- <- <- <- <- <- <- <-.
  rewrite Hdims in Hdims'. injection Hdims' as <- <- <-.
  rewrite Hvel in Hvd. injection Hvd as <-.
  rewrite Hgrad in Hgd. injection Hgd as <-.
  rewrite Hw in Hw'. injection Hw' as <-.
  apply centered_box_shifted in Hvgb as ->.
  apply centered_box_shifted in Hggb as ->.
  apply fillbox_Some in Hfb as ->.
  eexists. split; [exact Hcalls|].
  cbn [COMPUTE_NORMAL_VELOCITY_TERM_FOR_LSE_RHS_3D.fb
       COMPUTE_NORMAL_VELOCITY_TERM_FOR_LSE_RHS_3D.lse_rhs_gb
       COMPUTE_NORMAL_VELOCITY_TERM_FOR_LSE_RHS_3D.vel_gb
       COMPUTE_NORMAL_VELOCITY_TERM_FOR_LSE_RHS_3D.grad_phi_plus_gb
       COMPUTE_NORMAL_VELOCITY_TERM_FOR_LSE_RHS_3D.grad_phi_minus_gb].
  unfold box_within, shifted_box.
  cbn [ilo ihi jlo jhi klo khi].
  split; [lia|].
  split.
  { intros H0 H1 H2.
    pose proof (fill_within_shifted v0 n0 w Hpos H0).
    pose proof (fill_within_shifted v1 n1 w Hpos H1).
    pose proof (fill_within_shifted v2 n2 w Hpos H2). lia. }
  split; [|reflexivity].
  intros H0 H1 H2.
  pose proof (fill_within_shifted g0 n0 w Hpos H0).
  pose proof (fill_within_shifted g1 n1 w Hpos H1).
  pose proof (fill_within_shifted g2 n2 w Hpos H2). lia.
Qed.

Lemma fill_box_within_centered_boxes_witness :
  exists args,
    st_calls (snd (COMPUTE_NORMAL_VELOCITY_TERM_FOR_LSE_RHS_3D.mexFunction
                     DoublePrecision 1 rhs_small_velocity (initial_state [])))
      = [args]
    /\ box_within (COMPUTE_NORMAL_VELOCITY_TERM_FOR_LSE_RHS_3D.fb args)
                  (COMPUTE_NORMAL_VELOCITY_TERM_FOR_LSE_RHS_3D.vel_gb args).
Proof.
  destruct (fill_box_within_centered_boxes DoublePrecision 1
              (ones [6; 5; 5]) (scalar (dbl 2 0)) (ones [3; 3; 3])
              (ones [6; 5; 5]) (ones [6; 5; 5]) (ones [6; 5; 5])
              (ones [6; 5; 5]) (ones [6; 5; 5]) (ones [6; 5; 5])
              6 5 5 3 3 3 6 5 5 2
              (initial_state [])
              (snd (COMPUTE_NORMAL_VELOCITY_TERM_FOR_LSE_RHS_3D.mexFunction
                      DoublePrecision 1 rhs_small_velocity (initial_state []))))
    as (args & Hcalls & _ & Hvel & _).
  - vm_compute. reflexivity.
  - reflexivity.
  - reflexivity.
  - reflexivity.
  - vm_compute. reflexivity.
  - lia.
  - exists args. split; [exact Hcalls|]. apply Hvel; lia.
Defined.

(** X7: a returning call of the normal-velocity wrapper allocates no
    scratch memory and never asks the allocator; it makes one kernel call
    and assigns output slot [LSE_RHS] only.  The array it leaves there has
    the class of [LSMLIB_REAL] and one element for each cell of the box
    of [phi]. *)
Theorem normal_velocity_return_effects cfg nlhs prhs
        (st st' : mex_state
           COMPUTE_NORMAL_VELOCITY_TERM_FOR_LSE_RHS_3D.LSM3D_ADD_NORMAL_VEL_TERM_TO_LSE_RHS_args) :
  COMPUTE_NORMAL_VELOCITY_TERM_FOR_LSE_RHS_3D.mexFunction cfg nlhs prhs st
    = (Returned tt, st') ->
  st_live st' = st_live st
  /\ st_next st' = st_next st
  /\ st_oracle st' = st_oracle st
  /\ (forall slot, slot ≠ COMPUTE_NORMAL_VELOCITY_TERM_FOR_LSE_RHS_3D.LSE_RHS ->
        st_plhs st' !! slot = st_plhs st !! slot)
  /\ (exists args, st_calls st' = args :: st_calls st)
  /\ exists PHI n0 n1 n2 lse_rhs,
       prhs !! 0%nat = Some PHI
       /\ mx_dims PHI = [n0; n1; n2]
       /\ st_plhs st' !! COMPUTE_NORMAL_VELOCITY_TERM_FOR_LSE_RHS_3D.LSE_RHS
          = Some lse_rhs
       /\ mx_class lse_rhs = real_class cfg
       /\ length (mx_data lse_rhs) = Z.to_nat (n0 * n1 * n2).
Proof.
  intros H.
  pose proof (NV_returned_inv _ _ _ _ _ H)
    as (PHI & GW & VEL & XP & YP & ZP & XM & YM & ZM & n0 & n1 & n2
        & vd & gd & vgb & ggb & w & fbx & after & Hprhs & Hdims & _ & _
        & _ & _ & _ & _ & Hker & Hplhs & Hcalls).
  apply normal_vel_kernel_frame in Hker as [Hlen _].
  rewrite length_replicate in Hlen.
  assert (Hstate : st_live st' = st_live st /\ st_next st' = st_next st
                   /\ st_oracle st' = st_oracle st).
  { clear Hplhs Hcalls. subst prhs.
    unfold COMPUTE_NORMAL_VELOCITY_TERM_FOR_LSE_RHS_3D.mexFunction in H.
    nv_inv H.
    apply set_plhs_Returned in H as (a & _ & ->).
    cbn beta iota delta [st_plhs st_live st_next st_oracle st_calls].
    repeat split. }
  destruct Hstate as (Hl & Hn & Ho).
  split; [exact Hl|]. split; [exact Hn|]. split; [exact Ho|].
  split.
  { intros slot Hslot. rewrite Hplhs. by rewrite lookup_insert_ne. }
  split; [eexists; exact Hcalls|].
  exists PHI, n0, n1, n2. eexists.
  split; [by subst prhs|]. split; [exact Hdims|].
  split; [rewrite Hplhs; apply lookup_insert_eq|].
  simpl. split; [reflexivity|].
  rewrite Hlen. unfold num_elements. simpl. f_equal. lia.
Qed.

Lemma normal_velocity_return_effects_witness :
  st_oracle (snd (COMPUTE_NORMAL_VELOCITY_TERM_FOR_LSE_RHS_3D.mexFunction
                    DoublePrecision 1 (rhs_sample [3; 3; 3])
                    (initial_state [false; true])))
    = [false; true]
  /\ exists lse_rhs,
       st_plhs (snd (COMPUTE_NORMAL_VELOCITY_TERM_FOR_LSE_RHS_3D.mexFunction
                       DoublePrecision 1 (rhs_sample [3; 3; 3])
                       (initial_state [false; true])))
         !! COMPUTE_NORMAL_VELOCITY_TERM_FOR_LSE_RHS_3D.LSE_RHS = Some lse_rhs
       /\ length (mx_data lse_rhs) = 27%nat.
Proof.
  destruct (normal_velocity_return_effects DoublePrecision 1
              (rhs_sample [3; 3; 3]) (initial_state [false; true])
              (snd (COMPUTE_NORMAL_VELOCITY_TERM_FOR_LSE_RHS_3D.mexFunction
                      DoublePrecision 1 (rhs_sample [3; 3; 3])
                      (initial_state [false; true]))))
    as (_ & _ & Ho & _ & _ & PHI & n0 & n1 & n2 & a & HPHI & Hd & Ha & _ & Hlen).
  - vm_compute. reflexivity.
  - split; [exact Ho|]. exists a. split; [exact Ha|].
    injection HPHI as <-. injection Hd as <- <- <-. exact Hlen.
Defined.

(** ** Order of the checks *)

(** X8: the normal-velocity wrapper checks the precision of its eight
    field arrays in the order phi, normal_velocity, phi_x_plus, ...,
    phi_z_minus and stops at the first one of the wrong class: the message
    names that array, whatever the later arrays are, and nothing has been
    done. *)
Theorem first_wrong_precision_is_reported cfg nlhs prhs pre a name post
        (st : mex_state
           COMPUTE_NORMAL_VELOCITY_TERM_FOR_LSE_RHS_3D.LSM3D_ADD_NORMAL_VEL_TERM_TO_LSE_RHS_args) :
  nlhs <= 1 ->
  checked_arrays prhs = pre ++ (a, name) :: post ->
  Forall (fun p => has_real_class cfg (fst p) = true) pre ->
  has_real_class cfg a = false ->
  COMPUTE_NORMAL_VELOCITY_TERM_FOR_LSE_RHS_3D.mexFunction cfg nlhs prhs st
    = (Raised (precision_message cfg name), st).
Proof.
  intros Hnlhs Heq Hall Hbad.
  destruct prhs as [|PHI [|GW [|VEL [|XP [|YP [|ZP [|XM [|YM [|ZM [|]]]]]]]]]];
    try (destruct pre; discriminate Heq).
  unfold COMPUTE_NORMAL_VELOCITY_TERM_FOR_LSE_RHS_3D.mexFunction.
  rewrite (proj2 (Z.ltb_ge 1 nlhs)) by lia.
  unfold checked_arrays in Heq.
  repeat (destruct pre as [|[? ?] pre];
          [ injection Heq as <- <- _;
            apply bind_Raised, check_precision_mismatch; exact Hbad
          | injection Heq as -> -> Heq;
            let Hb := fresh "Hb" in
            apply Forall_cons in Hall as [Hb Hall]; simpl in Hb;
            rewrite bind_check_ok by exact Hb ]).
  destruct pre; discriminate Heq.
Qed.

Lemma first_wrong_precision_is_reported_witness :
  COMPUTE_NORMAL_VELOCITY_TERM_FOR_LSE_RHS_3D.mexFunction DoublePrecision 1
    (<[2%nat := constant_array mxSINGLE_CLASS [3; 3; 3] (dbl 1 0)]>
       (<[5%nat := constant_array mxSINGLE_CLASS [3; 3; 3] (dbl 1 0)]>
          (rhs_sample [3; 3; 3])))
    (initial_state [])
  = (Raised (precision_message DoublePrecision "normal_velocity"),
     initial_state []).
Proof.
  apply (first_wrong_precision_is_reported DoublePrecision 1 _
           [(ones [3; 3; 3], "phi"%string)]
           (constant_array mxSINGLE_CLASS [3; 3; 3] (dbl 1 0))
           "normal_velocity"
           [(ones [3; 3; 3], "phi_x_plus"%string);
            (ones [3; 3; 3], "phi_y_plus"%string);
            (constant_array mxSINGLE_CLASS [3; 3; 3] (dbl 1 0), "phi_z_plus"%string);
            (ones [3; 3; 3], "phi_x_minus"%string);
            (ones [3; 3; 3], "phi_y_minus"%string);
            (ones [3; 3; 3], "phi_z_minus"%string)]).
  - lia.
  - reflexivity.
  - repeat constructor.
  - reflexivity.
Defined.

Lemma three_allocations {K} s1 s2 s3 (st st1 st2 st3 : mex_state K) p1 p2 p3 :
  mxMalloc s1 st = (Returned p1, st1) ->
  mxMalloc s2 st1 = (Returned p2, st2) ->
  mxMalloc s3 st2 = (Returned p3, st3) ->
  (exists a b c, p1 = Some a /\ p2 = Some b /\ p3 = Some c)
  \/ ((p1 = None \/ p2 = None \/ p3 = None)
      /\ take 3 (st_oracle st) ≠ [true; true; true]).
Proof.
  unfold mxMalloc. intros H1 H2 H3.
  destruct (st_oracle st) as [|[] r1]; simplify_eq; simpl in *;
    try (right; split; [auto | discriminate]).
  destruct r1 as [|[] r2]; simplify_eq; simpl in *;
    try (right; split; [auto | discriminate]).
  destruct r2 as [|[] r3]; simplify_eq; simpl in *;
    try (right; split; [auto | discriminate]).
  left. by eexists _, _, _.
Qed.

Lemma HJ_failure_message (p1 p2 p3 : option nat) m msg
      (st st' : mex_state HJ_ENO3_3D.LSM3D_HJ_ENO3_args) :
  (HJ_ENO3_3D.free_if_allocated p1 ;; HJ_ENO3_3D.free_if_allocated p2 ;;
   HJ_ENO3_3D.free_if_allocated p3 ;;
   (mexErrMsgTxt m : HJ_ENO3_3D.MEX unit)) st = (Raised msg, st') ->
  msg = m.
Proof.
  destruct p1, p2, p3;
    unfold HJ_ENO3_3D.free_if_allocated, bind, mxFree, ret, mexErrMsgTxt;
    intros H; by simplify_eq.
Qed.

(** X9: what each error of HJ_ENO3_3D means.  A call that raises an error
    has the wrong number of arguments, or asks for more than six outputs,
    or has a [phi] that is not three-dimensional, or a three-dimensional
    [phi] of the wrong precision, or, with all of these in order, has
    failed to get one of its three scratch blocks; the message tells which,
    and the checks are made in this order. *)
Theorem eno3_error_cases cfg nlhs prhs msg
        (st st' : mex_state HJ_ENO3_3D.LSM3D_HJ_ENO3_args) :
  HJ_ENO3_3D.mexFunction cfg nlhs prhs st = (Raised msg, st') ->
  (length prhs ≠ 3%nat /\ msg = "Three required input arguments."%string)
  \/ (length prhs = 3%nat /\ 6 < nlhs
      /\ msg = "Too many output arguments."%string)
  \/ exists PHI,
       prhs !! 0%nat = Some PHI /\ length prhs = 3%nat /\ nlhs <= 6
       /\ ((mxGetNumberOfDimensions PHI ≠ 3
            /\ msg = "phi should be a 3 dimensional array."%string)
           \/ (mxGetNumberOfDimensions PHI = 3
               /\ has_real_class cfg PHI = false
               /\ msg = precision_message cfg "phi")
           \/ (mxGetNumberOfDimensions PHI = 3
               /\ has_real_class cfg PHI = true
               /\ take 3 (st_oracle st) ≠ [true; true; true]
               /\ msg = "Unable to allocate memory for scratch data...aborting...."%string)).
Proof.
  intros H. unfold HJ_ENO3_3D.mexFunction in H.
  destruct prhs as [|PHI [|GW [|DX [|]]]];
    try (unfold mexErrMsgTxt in H; simplify_eq; left; split;
         [simpl; lia | reflexivity]).
  right.
  apply guard_Raised in H as [(Hc & -> & ->)|[Hc H]].
  { left. apply Z.ltb_lt in Hc. done. }
  right. exists PHI. apply Z.ltb_ge in Hc.
  split; [reflexivity|]. split; [reflexivity|]. split; [exact Hc|].
  apply guard_Raised in H as [(Hd & -> & ->)|[Hd H]].
  { left. apply negb_true_iff, Z.eqb_neq in Hd. done. }
  apply negb_false_iff, Z.eqb_eq in Hd. right.
  apply bind_check_Raised in H as [(Hp & -> & ->)|[Hp H]].
  { left. done. }
  right.
  raise_inv H.
  destruct (three_allocations _ _ _ _ _ _ _ _ _ _ Hp0 Hp1 Hp2)
    as [(a & b & c & -> & -> & ->)|[Hnone Hor]].
  { exfalso. cbv iota in H. raise_inv H. unfold mxFree in H. discriminate H. }
  split; [exact Hd|]. split; [exact Hp|]. split; [exact Hor|].
  destruct p as [a|]; [destruct p0 as [b|]; [destruct p1 as [c|]|]|];
    cbv iota in H.
  1: { exfalso. destruct Hnone as [?|[?|?]]; discriminate. }
  all: exact (HJ_failure_message _ _ _ _ _ _ _ H).
Qed.

Lemma eno3_error_cases_witness :
  (length eno3_sample ≠ 3%nat
   /\ "Unable to allocate memory for scratch data...aborting...."%string
      = "Three required input arguments."%string)
  \/ (length eno3_sample = 3%nat /\ 6 < 6
      /\ "Unable to allocate memory for scratch data...aborting...."%string
         = "Too many output arguments."%string)
  \/ exists PHI,
       eno3_sample !! 0%nat = Some PHI /\ length eno3_sample = 3%nat /\ 6 <= 6
       /\ ((mxGetNumberOfDimensions PHI ≠ 3
            /\ "Unable to allocate memory for scratch data...aborting...."%string
               = "phi should be a 3 dimensional array."%string)
           \/ (mxGetNumberOfDimensions PHI = 3
               /\ has_real_class DoublePrecision PHI = false
               /\ "Unable to allocate memory for scratch data...aborting...."%string
                  = precision_message DoublePrecision "phi")
           \/ (mxGetNumberOfDimensions PHI = 3
               /\ has_real_class DoublePrecision PHI = true
               /\ take 3 [true; false; true] ≠ [true; true; true]
               /\ "Unable to allocate memory for scratch data...aborting...."%string
                  = "Unable to allocate memory for scratch data...aborting...."%string)).
Proof.
  apply (eno3_error_cases DoublePrecision 6 eno3_sample
           "Unable to allocate memory for scratch data...aborting...."
           (initial_state [true; false; true])
           (snd (HJ_ENO3_3D.mexFunction DoublePrecision 6 eno3_sample
                   (initial_state [true; false; true])))).
  vm_compute. reflexivity.
Defined.

Ltac precision_step H pre :=
  let Hc := fresh "Hclass" in
  apply bind_check_Raised in H as [(Hc & -> & ->)|[Hc H]];
  [ left; eexists pre, _, _, _;
    split; [reflexivity|];
    split; [repeat (constructor; [assumption|]); constructor|];
    split; [exact Hc | reflexivity]
  | ].

(** X10: what each error of the normal-velocity wrapper means.  A call
    that raises an error has the wrong number of arguments, or asks for
    more than one output, or has a field array of the wrong precision
    (the message names the first one in the order of the checks), or,
    with all eight arrays of the right precision, a [phi] that is not
    three-dimensional.  There is no other error. *)
Theorem normal_velocity_error_cases cfg nlhs prhs msg
        (st st' : mex_state
           COMPUTE_NORMAL_VELOCITY_TERM_FOR_LSE_RHS_3D.LSM3D_ADD_NORMAL_VEL_TERM_TO_LSE_RHS_args) :
  COMPUTE_NORMAL_VELOCITY_TERM_FOR_LSE_RHS_3D.mexFunction cfg nlhs prhs st
    = (Raised msg, st') ->
  (length prhs ≠ 9%nat /\ msg = "Nine input arguments required."%string)
  \/ (length prhs = 9%nat /\ 1 < nlhs
      /\ msg = "Too many output arguments."%string)
  \/ (length prhs = 9%nat /\ nlhs <= 1
      /\ ((exists pre a name post,
             checked_arrays prhs = pre ++ (a, name) :: post
             /\ Forall (fun p => has_real_class cfg (fst p) = true) pre
             /\ has_real_class cfg a = false
             /\ msg = precision_message cfg name)
          \/ (Forall (fun p => has_real_class cfg (fst p) = true)
                     (checked_arrays prhs)
              /\ exists PHI, prhs !! 0%nat = Some PHI
                   /\ mxGetNumberOfDimensions PHI ≠ 3
                   /\ msg = "phi should be a 3 dimensional array."%string))).
Proof.
  intros H. unfold COMPUTE_NORMAL_VELOCITY_TERM_FOR_LSE_RHS_3D.mexFunction in H.
  destruct prhs as [|PHI [|GW [|VEL [|XP [|YP [|ZP [|XM [|YM [|ZM [|]]]]]]]]]];
    try (unfold mexErrMsgTxt in H; simplify_eq; left; split;
         [simpl; lia | reflexivity]).
  right.
  apply guard_Raised in H as [(Hc & -> & ->)|[Hc H]].
  { left. apply Z.ltb_lt in Hc. done. }
  right. apply Z.ltb_ge in Hc.
  split; [reflexivity|]. split; [exact Hc|].
  unfold checked_arrays.
  precision_step H (@nil (mxArray * string)).
  precision_step H [(PHI, "phi"%string)].
  precision_step H [(PHI, "phi"%string); (VEL, "normal_velocity"%string)].
  precision_step H [(PHI, "phi"%string); (VEL, "normal_velocity"%string);
                    (XP, "phi_x_plus"%string)].
  precision_step H [(PHI, "phi"%string); (VEL, "normal_velocity"%string);
                    (XP, "phi_x_plus"%string); (YP, "phi_y_plus"%string)].
  precision_step H [(PHI, "phi"%string); (VEL, "normal_velocity"%string);
                    (XP, "phi_x_plus"%string); (YP, "phi_y_plus"%string);
                    (ZP, "phi_z_plus"%string)].
  precision_step H [(PHI, "phi"%string); (VEL, "normal_velocity"%string);
                    (XP, "phi_x_plus"%string); (YP, "phi_y_plus"%string);
                    (ZP, "phi_z_plus"%string); (XM, "phi_x_minus"%string)].
  precision_step H [(PHI, "phi"%string); (VEL, "normal_velocity"%string);
                    (XP, "phi_x_plus"%string); (YP, "phi_y_plus"%string);
                    (ZP, "phi_z_plus"%string); (XM, "phi_x_minus"%string);
                    (YM, "phi_y_minus"%string)].
  right.
  split; [repeat (constructor; [assumption|]); constructor|].
  apply guard_Raised in H as [(Hd & -> & ->)|[Hd H]].
  { exists PHI. apply negb_true_iff, Z.eqb_neq in Hd. done. }
  exfalso.
  raise_inv H.
  apply bind_get_plhs_inv in H as (a & _ & H).
  raise_inv H.
  apply bind_set_plhs_inv in H as (a' & _ & H). reduce_state H.
  raise_inv H.
  apply bind_get_plhs_inv in H as (a'' & _ & H).
  raise_inv H.
  by apply set_plhs_never_raises in H.
Qed.

Lemma normal_velocity_error_cases_witness :
  exists PHI,
    (<[0%nat := ones [3; 3]]> (rhs_sample [3; 3; 3])) !! 0%nat = Some PHI
    /\ mxGetNumberOfDimensions PHI ≠ 3.
Proof.
  destruct (normal_velocity_error_cases DoublePrecision 1
              (<[0%nat := ones [3; 3]]> (rhs_sample [3; 3; 3]))
              "phi should be a 3 dimensional array." (initial_state [])
              (snd (COMPUTE_NORMAL_VELOCITY_TERM_FOR_LSE_RHS_3D.mexFunction
                      DoublePrecision 1
                      (<[0%nat := ones [3; 3]]> (rhs_sample [3; 3; 3]))
                      (initial_state []))))
    as [[Hlen _]|[(_ & Hn & _)|(_ & _ & [Hprec|(_ & PHI & HPHI & Hd & _)])]].
  - vm_compute. reflexivity.
  - exfalso. apply Hlen. reflexivity.
  - exfalso. lia.
  - exfalso. destruct Hprec as (pre & a & name & post & Heq & Hall & Hbad & Hmsg).
    unfold checked_arrays in Heq. simpl in Heq.
    repeat (destruct pre as [|[? ?] pre];
            [ injection Heq as <- <- _; discriminate Hbad
            | injection Heq as _ _ Heq ]).
    destruct pre; discriminate Heq.
  - exists PHI. split; [exact HPHI | exact Hd].
Defined.

(** ** Calls that return *)

Lemma fillbox_defined n0 n1 n2 w :
  0 <= n0 <= INT_MAX -> 0 <= n1 <= INT_MAX -> 0 <= n2 <= INT_MAX ->
  0 <= w < INT_MAX ->
  fillbox (Box 1 n0 1 n1 1 n2) w
  = Some (Box (1 + w) (n0 - w) (1 + w) (n1 - w) (1 + w) (n2 - w)).
Proof.
  intros H0 H1 H2 Hw. unfold fillbox, int_add, int_sub. simpl.
  unfold INT_MAX in *.
  rewrite !int_checked_in_range by (unfold INT_MIN, INT_MAX; lia).
  reflexivity.
Qed.



(** ** The cell count *)

Lemma cell_count_overflows n0 n1 n2 :
  0 <= n0 -> 0 <= n1 -> 0 <= n2 -> INT_MAX < n0 * n1 * n2 ->
  int_mul n0 n1 ≫= (fun p => int_mul p n2) = None.
Proof.
  intros H0 H1 H2 Hbig. unfold int_mul.
  destruct (int_checked (n0 * n1)) as [p|] eqn:Hp; [|reflexivity].
  apply int_checked_Some in Hp as [-> _]. simpl.
  unfold int_checked, int_range.
  replace (n0 * n1 * n2 <=? INT_MAX) with false by (symmetry; apply Z.leb_gt; lia).
  by rewrite andb_false_r.
Qed.

(** X12: the normal-velocity wrapper counts the cells of [lse_rhs] in an
    [int].  For a [phi] with more than [INT_MAX] cells the product of its
    three extents overflows, so a call that has passed the checks and
    created the output array has no defined behaviour: it neither returns
    nor raises an error. *)
Theorem cell_count_overflow_is_undefined cfg nlhs PHI GW VEL XP YP ZP XM YM ZM
        n0 n1 n2
        (st : mex_state
           COMPUTE_NORMAL_VELOCITY_TERM_FOR_LSE_RHS_3D.LSM3D_ADD_NORMAL_VEL_TERM_TO_LSE_RHS_args) :
  nlhs <= 1 ->
  Forall (fun p => has_real_class cfg (fst p) = true)
         (checked_arrays [PHI; GW; VEL; XP; YP; ZP; XM; YM; ZM]) ->
  mx_dims PHI = [n0; n1; n2] ->
  0 <= n0 -> 0 <= n1 -> 0 <= n2 ->
  INT_MAX < n0 * n1 * n2 ->
  fst (COMPUTE_NORMAL_VELOCITY_TERM_FOR_LSE_RHS_3D.mexFunction cfg nlhs
         [PHI; GW; VEL; XP; YP; ZP; XM; YM; ZM] st) = Undefined.
Proof.
  intros Hnlhs Hall Hdims H0 H1 H2 Hbig.
  pose proof (cell_count_overflows n0 n1 n2 H0 H1 H2 Hbig) as Hov.
  assert (Hd3 : dims3 PHI = Some (n0, n1, n2))
    by (unfold dims3; rewrite Hdims; reflexivity).
  destruct (COMPUTE_NORMAL_VELOCITY_TERM_FOR_LSE_RHS_3D.mexFunction cfg nlhs
              [PHI; GW; VEL; XP; YP; ZP; XM; YM; ZM] st) as [[[]|msg|] st'] eqn:H;
    [exfalso|exfalso|reflexivity].
  - unfold COMPUTE_NORMAL_VELOCITY_TERM_FOR_LSE_RHS_3D.mexFunction in H.
    nv_inv H.
    repeat match goal with
    | E : extent _ _ = Some _ |- _ => apply extent_Some in E; simpl in E; subst
    end.
    match goal with
    | Hd : dims3 PHI = Some (?m0, ?m1, ?m2),
      Hm : int_mul _ _ ≫= _ = Some _ |- _ =>
        rewrite Hd3 in Hd; injection Hd as <- <- <-;
        revert Hm;
        replace (n0 - 1 + 1) with n0 by lia;
        replace (n1 - 1 + 1) with n1 by lia;
        replace (n2 - 1 + 1) with n2 by lia;
        rewrite Hov; discriminate
    end.
  - unfold COMPUTE_NORMAL_VELOCITY_TERM_FOR_LSE_RHS_3D.mexFunction in H.
    unfold checked_arrays in Hall.
    repeat match goal with
    | Hf : Forall _ (_ :: _) |- _ =>
        let Hb := fresh "Hb" in
        apply Forall_cons in Hf as [Hb Hf]; simpl in Hb
    end.
    apply guard_Raised in H as [(Hc & _ & _)|[_ H]];
      [apply Z.ltb_lt in Hc; lia|].
    repeat match type of H with
    | bind (check_precision _ _ _) _ _ = (Raised _, _) =>
        let Hc := fresh "Hc" in
        apply bind_check_Raised in H as [(Hc & _ & _)|[_ H]]; [congruence|]
    end.
    apply guard_Raised in H as [(Hc & _ & _)|[_ H]].
    { unfold mxGetNumberOfDimensions in Hc. rewrite Hdims in Hc. discriminate Hc. }
    raise_inv H.
    apply bind_get_plhs_inv in H as (a & _ & H).
    raise_inv H.
    apply bind_set_plhs_inv in H as (a' & _ & H). reduce_state H.
    raise_inv H.
    apply bind_get_plhs_inv in H as (a'' & _ & H).
    raise_inv H.
    by apply set_plhs_never_raises in H.
Qed.

Lemma cell_count_overflow_is_undefined_witness :
  fst (COMPUTE_NORMAL_VELOCITY_TERM_FOR_LSE_RHS_3D.mexFunction DoublePrecision 1
         [ones [2048; 2048; 1024]; scalar (dbl 1 0); ones [2048; 2048; 1024];
          ones [2048; 2048; 1024]; ones [2048; 2048; 1024];
          ones [2048; 2048; 1024]; ones [2048; 2048; 1024];
          ones [2048; 2048; 1024]; ones [2048; 2048; 1024]]
         (initial_state [])) = Undefined.
Proof.
  apply (cell_count_overflow_is_undefined DoublePrecision 1 _ _ _ _ _ _ _ _ _
           2048 2048 1024).
  - lia.
  - unfold checked_arrays. repeat (constructor; [reflexivity|]). constructor.
  - reflexivity.
  - lia.
  - lia.
  - lia.
  - unfold INT_MAX. lia.
Defined.

(** ** Arguments read as doubles *)

(** X13: HJ_ENO3_3D does not check the class of [ghostcell_width]; it
    reads the first eight bytes of its storage as a double.  In a
    returning call with a single-precision [ghostcell_width] whose first
    two floats have the bits [bl] and [bh], the width used for the fill
    box is the integer part of the double whose low 32 bits are [bl] and
    whose high 32 bits are [bh]. *)
Theorem eno3_single_width_read_as_double cfg nlhs PHI GW DX lo hi bl bh
        (st st' : mex_state HJ_ENO3_3D.LSM3D_HJ_ENO3_args) :
  mxIsSingle GW = true ->
  mx_data GW !! 0%nat = Some lo ->
  mx_data GW !! 1%nat = Some hi ->
  binary32_bits lo = Some bl ->
  binary32_bits hi = Some bh ->
  HJ_ENO3_3D.mexFunction cfg nlhs [PHI; GW; DX] st = (Returned tt, st') ->
  exists w n0 n1 n2 args,
    double_to_int (binary64_of_bits (bl + bh * 2 ^ 32)) = Some w
    /\ mx_dims PHI = [n0; n1; n2]
    /\ st_calls st' = args :: st_calls st
    /\ HJ_ENO3_3D.fb args
       = Box (1 + w) (n0 - w) (1 + w) (n1 - w) (1 + w) (n2 - w).
Proof.
  intros Hsingle Hlo Hhi Hbl Hbh H.
  apply HJ_returned_inv in H
    as (PHI' & GW' & DX' & n0 & n1 & n2 & w & d0 & d1 & d2 & fbx & Hprhs
        & Hdims & Hw & _ & _ & _ & Hfb & _ & Hcalls).
  injection Hprhs as <- <- <-.
  unfold mxIsSingle in Hsingle. apply bool_decide_eq_true in Hsingle.
  unfold mxGetPr_double in Hw. rewrite Hsingle in Hw.
  cbn [Nat.mul Nat.add] in Hw.
  rewrite Hlo in Hw. cbn [mbind option_bind] in Hw.
  rewrite Hhi in Hw. cbn [mbind option_bind] in Hw.
  rewrite Hbl in Hw. cbn [mbind option_bind] in Hw.
  rewrite Hbh in Hw. cbn [mbind option_bind] in Hw.
  apply fillbox_Some in Hfb. simpl in Hfb.
  exists w, n0, n1, n2. eexists.
  split; [exact Hw|]. split; [exact Hdims|].
  split; [exact Hcalls|]. simpl. exact Hfb.
Qed.

Lemma eno3_single_width_read_as_double_witness :
  exists args,
    st_calls (snd (HJ_ENO3_3D.mexFunction DoublePrecision 6
                     [ones [9; 9; 9]; single_width; sample_dX]
                     (initial_state [true; true; true])))
      = [args]
    /\ HJ_ENO3_3D.fb args = Box 5 5 5 5 5 5.
Proof.
  destruct (eno3_single_width_read_as_double DoublePrecision 6
              (ones [9; 9; 9]) single_width sample_dX
              (sgl 0 0) (sgl 9 (-2)) 0 1074790400
              (initial_state [true; true; true])
              (snd (HJ_ENO3_3D.mexFunction DoublePrecision 6
                      [ones [9; 9; 9]; single_width; sample_dX]
                      (initial_state [true; true; true]))))
    as (w & n0 & n1 & n2 & args & Hw & Hdims & Hcalls & Hfb).
  - reflexivity.
  - reflexivity.
  - reflexivity.
  - vm_compute. reflexivity.
  - vm_compute. reflexivity.
  - vm_compute. reflexivity.
  - exists args. split; [exact Hcalls|].
    vm_compute in Hw. injection Hw as <-.
    injection Hdims as <- <- <-.
    exact Hfb.
Defined.
